(** * py-scrypt: the CPython bindings of the scrypt primitive library

    A shallow embedding of [src/scrypt3.c] (the Python 3 binding) and of
    [src/scrypt2.c] (the Python 2 binding): the three entry points
    [scrypt_encrypt], [scrypt_decrypt] and [scrypt_hash] of each file, as
    programs of a small state-and-fault monad over a model of the interpreter
    state they touch (the PyMem heap, the error indicator, the GIL).

    The primitive library ([scryptenc_buf], [scryptdec_buf], [crypto_scrypt])
    is not part of the repository: it is an interface ([PrimLib]) the
    bindings are parameterised by.

    Data model.  The source notes that it "assumes uint32_t is unsigned long":
    the embedding fixes that data model (ILP32: [int], [long], [size_t] and
    [Py_ssize_t] are 32 bits wide, [uint64_t] is 64 bits wide). *)

From Stdlib Require Import ZArith List String Floats Lia.
From stdpp Require Import base gmap list.

Open Scope Z_scope.

(** ** Machine integers *)

Definition INT_MAX : Z := 2^31 - 1.
Definition PY_SSIZE_T_MAX : Z := 2^31 - 1.
Definition PY_SSIZE_T_MIN : Z := - 2^31.

(** Conversion to an unsigned type of [w] bits: reduction modulo [2^w]. *)
Definition to_unsigned (w : Z) (z : Z) : Z := z mod 2^w.
Definition to_size_t : Z -> Z := to_unsigned 32.
Definition to_uint32 : Z -> Z := to_unsigned 32.
Definition to_uint64 : Z -> Z := to_unsigned 64.

(** ** Python objects, as far as the bindings look at them *)

Definition bytes := list Byte.byte.

Inductive PyObject : Type :=
| PyBytes (b : bytes)        (* [bytes] in Python 3, [str] in Python 2 *)
| PyUnicode (s : list N)     (* text: [str] in Python 3, [unicode] in Python 2; code points *)
| PyLong (z : Z)
| PyFloat (f : float)
| PyNone.

Inductive PyExc : Type :=
| ScryptError                (* the module's own [scrypt.error] *)
| TypeError
| OverflowError
| UnicodeEncodeError
| UnicodeDecodeError.

(** The value an exception is raised with. *)
Inductive ExcValue : Type :=
| NoValue                    (* [Py_None]: the exception carries no message *)
| Message (s : string)       (* a message formatted by the module *)
| InterpreterMessage.        (* a message chosen by the interpreter *)

Definition PyErr : Type := PyExc * ExcValue.

(** ** UTF-8, as the interpreter's strict codec reads and writes it *)

Definition is_cont (b : N) : bool := ((128 <=? b) && (b <=? 191))%N.
Definition cont_bits (b : N) : N := (b - 128)%N.

Fixpoint utf8_decode_N (bs : list N) : option (list N) :=
  match bs with
  | [] => Some []
  | b0 :: t0 =>
    if (b0 <=? 127)%N then option_map (cons b0) (utf8_decode_N t0)
    else if ((194 <=? b0) && (b0 <=? 223))%N then
      match t0 with
      | b1 :: t1 =>
        if is_cont b1
        then option_map (cons ((b0 - 192) * 64 + cont_bits b1)%N) (utf8_decode_N t1)
        else None
      | _ => None
      end
    else if ((224 <=? b0) && (b0 <=? 239))%N then
      match t0 with
      | b1 :: b2 :: t2 =>
        let lo := if (b0 =? 224)%N then 160%N else 128%N in
        let hi := if (b0 =? 237)%N then 159%N else 191%N in
        if ((lo <=? b1) && (b1 <=? hi))%N && is_cont b2
        then option_map
               (cons ((b0 - 224) * 4096 + cont_bits b1 * 64 + cont_bits b2)%N)
               (utf8_decode_N t2)
        else None
      | _ => None
      end
    else if ((240 <=? b0) && (b0 <=? 244))%N then
      match t0 with
      | b1 :: b2 :: b3 :: t3 =>
        let lo := if (b0 =? 240)%N then 144%N else 128%N in
        let hi := if (b0 =? 244)%N then 143%N else 191%N in
        if ((lo <=? b1) && (b1 <=? hi))%N && is_cont b2 && is_cont b3
        then option_map
               (cons ((b0 - 240) * 262144 + cont_bits b1 * 4096
                      + cont_bits b2 * 64 + cont_bits b3)%N)
               (utf8_decode_N t3)
        else None
      | _ => None
      end
    else None
  end.

Definition utf8_decode (bs : bytes) : option (list N) :=
  utf8_decode_N (map Byte.to_N bs).

Definition byte_of_N (n : N) : Byte.byte :=
  match Byte.of_N n with Some b => b | None => Byte.x00 end.

Definition utf8_encode_cp (c : N) : option bytes :=
  if (c <=? 127)%N then Some [byte_of_N c]
  else if (c <=? 2047)%N then
    Some [byte_of_N (192 + c / 64); byte_of_N (128 + c mod 64)]%N
  else if ((55296 <=? c) && (c <=? 57343))%N then None      (* lone surrogate *)
  else if (c <=? 65535)%N then
    Some [byte_of_N (224 + c / 4096); byte_of_N (128 + (c / 64) mod 64);
          byte_of_N (128 + c mod 64)]%N
  else if (c <=? 1114111)%N then
    Some [byte_of_N (240 + c / 262144); byte_of_N (128 + (c / 4096) mod 64);
          byte_of_N (128 + (c / 64) mod 64); byte_of_N (128 + c mod 64)]%N
  else None.

Fixpoint utf8_encode (s : list N) : option bytes :=
  match s with
  | [] => Some []
  | c :: t =>
    match utf8_encode_cp c, utf8_encode t with
    | Some b, Some bt => Some (b ++ bt)
    | _, _ => None
    end
  end.

(** ** The primitive library

    [scryptenc/scryptenc.h] and [crypto/crypto_scrypt.h] are external: the
    bindings only call them.  A call is modelled by what it returns and by the
    bytes it writes at the start of its output buffer; [Env] is whatever the
    library reads from the host (the entropy device, the clock, the memory
    limits), which encryption and decryption also change. *)

Class PrimLib : Type := {
  Env : Type;
  (** [scryptenc_buf inbuf passwd maxmem maxmemfrac maxtime]: return code,
      bytes written to [outbuf]. *)
  scryptenc_buf : bytes -> bytes -> Z -> float -> float -> Env -> Z * bytes * Env;
  (** [scryptdec_buf inbuf passwd maxmem maxmemfrac maxtime]: return code,
      bytes written to [outbuf], value stored through [outlen]. *)
  scryptdec_buf : bytes -> bytes -> Z -> float -> float -> Env -> Z * bytes * Z * Env;
  (** [crypto_scrypt passwd salt N r p buflen]: return code, bytes written to
      [buf]; it may look at the host (it allocates), it does not change it. *)
  crypto_scrypt : bytes -> bytes -> Z -> Z -> Z -> Z -> Env -> Z * bytes
}.

(** ** The interpreter state *)

Definition ptr : Type := option positive.      (* [None] is [NULL] *)

Inductive Event : Type :=
| EvMalloc (n : Z) (p : ptr)
| EvFree (p : ptr)
| EvSaveThread                 (* [Py_BEGIN_ALLOW_THREADS] *)
| EvRestoreThread              (* [Py_END_ALLOW_THREADS] *)
| EvGuard (paramerror : Z)     (* the test on [N], [r], [p] and its verdict *)
| EvScryptencBuf
| EvScryptdecBuf
| EvCryptoScrypt (N r p : Z)
| EvIncref
| EvDecref
| EvPyStringAsString.          (* [PyString_AsString], an interpreter call *)

Inductive FaultKind : Type :=
| SignedOverflow
| NullDereference
| UseAfterFree
| BufferOverflow               (* a write past the end of a block *)
| OutOfBoundsRead              (* a read past the end of a block or array *)
| UninitialisedRead            (* a read of a local that was never assigned *)
| DoubleFree.

Section Interp.
Context {L : PrimLib}.

Record World : Type := mkWorld {
  heap : gmap positive bytes;          (* live PyMem blocks and their contents *)
  malloc_limit : Z;                    (* the largest request the allocator serves *)
  junk : nat -> Byte.byte;             (* what a fresh block happens to contain *)
  err_indicator : option PyErr;
  gil_held : bool;
  trace : list Event;
  env : Env
}.

Inductive Res (A : Type) : Type :=
| Done (a : A) (w : World)
| Fault (k : FaultKind) (w : World).   (* undefined behaviour, and the state it was met in *)
#[global] Arguments Done {A} a w.
#[global] Arguments Fault {A} k w.

Definition M (A : Type) : Type := World -> Res A.

Definition ret {A} (a : A) : M A := fun w => Done a w.
Definition bind {A B} (m : M A) (f : A -> M B) : M B :=
  fun w => match m w with
           | Done a w' => f a w'
           | Fault k w' => Fault k w'
           end.
Definition fault {A} (k : FaultKind) : M A := fun w => Fault k w.

Definition set_heap (h : gmap positive bytes) (w : World) : World :=
  mkWorld h (malloc_limit w) (junk w) (err_indicator w) (gil_held w) (trace w) (env w).
Definition set_err (e : option PyErr) (w : World) : World :=
  mkWorld (heap w) (malloc_limit w) (junk w) e (gil_held w) (trace w) (env w).
Definition set_gil (g : bool) (w : World) : World :=
  mkWorld (heap w) (malloc_limit w) (junk w) (err_indicator w) g (trace w) (env w).
Definition set_env (e : Env) (w : World) : World :=
  mkWorld (heap w) (malloc_limit w) (junk w) (err_indicator w) (gil_held w) (trace w) e.
Definition log (ev : Event) (w : World) : World :=
  mkWorld (heap w) (malloc_limit w) (junk w) (err_indicator w) (gil_held w)
          (trace w ++ [ev]) (env w).

End Interp.

Declare Scope M_scope.
Delimit Scope M_scope with M.
Notation "x <- m ;; k" := (bind m (fun x => k))
  (at level 100, m at next level, right associativity) : M_scope.
Notation "m ;;; k" := (bind m (fun _ => k))
  (at level 100, right associativity) : M_scope.
Open Scope M_scope.

(** ** The CPython calls both bindings make *)

Section CPython.
Context {L : PrimLib}.

Definition junk_bytes (j : nat -> Byte.byte) (n : Z) : bytes :=
  map j (seq 0 (Z.to_nat n)).

(** [PyMem_Malloc(n)]: a fresh block of [n] bytes of indeterminate content, or
    [NULL] when the request cannot be served. *)
Definition PyMem_Malloc (n : Z) : M ptr := fun w =>
  if (n <=? malloc_limit w) && (n <=? PY_SSIZE_T_MAX) then
    let b := fresh (dom (heap w)) in
    Done (Some b)
         (log (EvMalloc n (Some b)) (set_heap (<[b := junk_bytes (junk w) n]> (heap w)) w))
  else Done None (log (EvMalloc n None) w).

(** [PyMem_Free(p)]: nothing for [NULL]; releasing a block that is not live is
    undefined. *)
Definition PyMem_Free (p : ptr) : M unit := fun w =>
  match p with
  | None => Done tt (log (EvFree None) w)
  | Some b =>
    match heap w !! b with
    | Some _ => Done tt (log (EvFree (Some b)) (set_heap (delete b (heap w)) w))
    | None => Fault DoubleFree w
    end
  end.

(** A callee writing [bs] at the start of the block [p] points to. *)
Definition store (p : ptr) (bs : bytes) : M unit := fun w =>
  match bs with
  | [] => Done tt w
  | _ :: _ =>
    match p with
    | None => Fault NullDereference w
    | Some b =>
      match heap w !! b with
      | None => Fault UseAfterFree w
      | Some old =>
        if (length bs <=? length old)%nat
        then Done tt (set_heap (<[b := bs ++ drop (length bs) old]> (heap w)) w)
        else Fault BufferOverflow w
      end
    end
  end.

(** Reading the first [n] bytes of the block [p] points to. *)
Definition load (p : ptr) (n : Z) : M bytes := fun w =>
  match p with
  | None => Fault NullDereference w
  | Some b =>
    match heap w !! b with
    | None => Fault UseAfterFree w
    | Some old =>
      if (0 <=? n) && (n <=? Z.of_nat (length old))
      then Done (take (Z.to_nat n) old) w
      else Fault OutOfBoundsRead w
    end
  end.

(** [strlen(p)]: the index of the first zero byte of the block [p] points to;
    with no zero byte in the block, the scan runs past its end. *)
Fixpoint first_nul (bs : bytes) : option nat :=
  match bs with
  | [] => None
  | b :: t => if Byte.eqb b Byte.x00 then Some O else option_map S (first_nul t)
  end.

Definition strlen (p : ptr) : M Z := fun w =>
  match p with
  | None => Fault NullDereference w
  | Some b =>
    match heap w !! b with
    | None => Fault UseAfterFree w
    | Some old =>
      match first_nul old with
      | Some m => Done (Z.of_nat m) w
      | None => Fault OutOfBoundsRead w
      end
    end
  end.

(** [int] addition: overflow is undefined. *)
Definition int_add (a b : Z) : M Z :=
  if (- 2^31 <=? a + b) && (a + b <=? INT_MAX) then ret (a + b)
  else fault SignedOverflow.

(** A [size_t] passed where the callee reads an [int]. *)
Definition as_int (z : Z) : Z :=
  let u := z mod 2^32 in if u <? 2^31 then u else u - 2^32.

(** [PyErr_Format(exc, "%s", msg)] and [PyErr_SetNone(exc)]: each replaces the
    error indicator. *)
Definition PyErr_Format (exc : PyExc) (msg : string) : M unit :=
  fun w => Done tt (set_err (Some (exc, Message msg)) w).
Definition PyErr_SetNone (exc : PyExc) : M unit :=
  fun w => Done tt (set_err (Some (exc, NoValue)) w).
(** An error the interpreter itself raises (argument parsing, codecs). *)
Definition PyErr_Raise (e : PyErr) : M unit :=
  fun w => Done tt (set_err (Some e) w).

Definition Py_BEGIN_ALLOW_THREADS : M unit :=
  fun w => Done tt (log EvSaveThread (set_gil false w)).
Definition Py_END_ALLOW_THREADS : M unit :=
  fun w => Done tt (log EvRestoreThread (set_gil true w)).
Definition Py_INCREF : M unit := fun w => Done tt (log EvIncref w).
Definition Py_DECREF : M unit := fun w => Done tt (log EvDecref w).

(** [PyString_AsString(o)] on a string object: the pointer to its bytes. *)
Definition PyString_AsString : M unit := fun w => Done tt (log EvPyStringAsString w).

(** A mark in the trace (for the places that are no call). *)
Definition emit (ev : Event) : M unit := fun w => Done tt (log ev w).

(** The calls into the primitive library. *)
Definition call_scryptenc_buf (inbuf : bytes) (outbuf : ptr) (passwd : bytes)
    (maxmem : Z) (maxmemfrac maxtime : float) : M Z := fun w =>
  let '(rc, out, e) := scryptenc_buf inbuf passwd maxmem maxmemfrac maxtime (env w) in
  match store outbuf out (log EvScryptencBuf (set_env e w)) with
  | Done _ w' => Done rc w'
  | Fault k w' => Fault k w'
  end.

Definition call_scryptdec_buf (inbuf : bytes) (outbuf : ptr) (passwd : bytes)
    (maxmem : Z) (maxmemfrac maxtime : float) : M (Z * Z) := fun w =>
  let '(rc, out, outlen, e) :=
    scryptdec_buf inbuf passwd maxmem maxmemfrac maxtime (env w) in
  match store outbuf out (log EvScryptdecBuf (set_env e w)) with
  | Done _ w' => Done (rc, outlen) w'
  | Fault k w' => Fault k w'
  end.

Definition call_crypto_scrypt (passwd salt : bytes) (N r p : Z)
    (buf : ptr) (buflen : Z) : M Z := fun w =>
  let '(rc, out) := crypto_scrypt passwd salt N r p buflen (env w) in
  match store buf out (log (EvCryptoScrypt N r p) w) with
  | Done _ w' => Done rc w'
  | Fault k w' => Fault k w'
  end.

(** ** What the two files share word for word *)

Definition g_error_codes : list string := [
  "success";
  "getrlimit or sysctl(hw.usermem) failed";
  "clock_getres or clock_gettime failed";
  "error computing derived key";
  "could not read salt from /dev/urandom";
  "error in OpenSSL";
  "malloc failed";
  "data is not a valid scrypt-encrypted block";
  "unrecognized scrypt format";
  "decrypting file would take too much memory";
  "decrypting file would take too long";
  "password is incorrect";
  "error writing output file";
  "error reading input file"
]%string.

(** [g_error_codes[errorcode]]: the array has 14 entries. *)
Definition error_message (errorcode : Z) : M string := fun w =>
  if (0 <=? errorcode)
  then match nth_error g_error_codes (Z.to_nat errorcode) with
       | Some s => Done s w
       | None => Fault OutOfBoundsRead w
       end
  else Fault OutOfBoundsRead w.

Definition g_maxmem_default : Z := 0.
Definition g_maxmemfrac_default : float := 0.5%float.
Definition g_maxmemfrac_default_enc : float := 0.125%float.
Definition g_maxtime_default : float := 300%float.
Definition g_maxtime_default_enc : float := 5%float.

Definition hash_params_message : string :=
  "hash parameters are wrong (r*p should be < 2**30, and N should be a power of two > 1)".
Definition hash_failed_message : string := "could not compute hash".

(** The documentation strings of the method table [ScryptMethods]. *)
Definition encrypt_doc : string :=
  "encrypt(input, password, maxtime=5.0, maxmem=0, maxmemfrac=0.125): str; encrypt a string".
Definition decrypt_doc : string :=
  "decrypt(input, password, maxtime=300.0, maxmem=0, maxmemfrac=0.5): str; decrypt a string".
Definition hash_doc : string :=
  "hash(password, salt, N=2**14, r=8, p=1): str; compute a 64-byte scrypt hash".

(** The test of [scrypt_hash] on its cost parameters,
    [r * p >= (1 << 30) || N <= 1 || (N & (N-1)) != 0], with [N] a [uint64_t]
    and [r], [p] of type [uint32_t]: the product is a [uint32_t]. *)
Definition params_wrong (N r p : Z) : bool :=
  (2^30 <=? to_uint32 (r * p)) || (N <=? 1)
  || negb (Z.land N (to_uint64 (N - 1)) =? 0).

(** The arguments of a call, once positions and keywords are matched with the
    keyword list; an optional argument that is absent is [None].  A [float]
    argument is the [double] the "d" converter produced. *)
Record CryptArgs : Type := {
  a_input : PyObject;
  a_password : PyObject;
  a_maxtime : option float;
  a_maxmem : option Z;
  a_maxmemfrac : option float
}.

Record HashArgs : Type := {
  h_password : PyObject;
  h_salt : PyObject;
  h_N : option Z;
  h_r : option Z;
  h_p : option Z
}.

(** Format "n": a Python integer to [Py_ssize_t], with overflow checking; the
    bindings store it in a [size_t]. *)
Definition parse_n (z : Z) : PyErr + Z :=
  if (PY_SSIZE_T_MIN <=? z) && (z <=? PY_SSIZE_T_MAX) then inr (to_size_t z)
  else inl (OverflowError, InterpreterMessage).

(** Formats "K" and "k": a Python integer to [unsigned long long] and to
    [unsigned long], without overflow checking. *)
Definition parse_K (z : Z) : Z := to_uint64 z.
Definition parse_k (z : Z) : Z := to_uint32 z.

Definition opt_default {A} (o : option A) (d : A) : A :=
  match o with Some x => x | None => d end.

End CPython.

(** ** [src/scrypt3.c]: the binding for Python 3 *)

Module Scrypt3.
Section Binding.
Context {L : PrimLib}.

(** Format "s#" of [PyArg_ParseTupleAndKeywords] (without
    [PY_SSIZE_T_CLEAN]): text is passed as its UTF-8 encoding, a bytes object
    as it is; the length must fit an [int]. *)
Definition parse_s_hash (o : PyObject) : PyErr + (bytes * Z) :=
  let checked (b : bytes) : PyErr + (bytes * Z) :=
    if INT_MAX <? Z.of_nat (length b) then inl (OverflowError, InterpreterMessage)
    else inr (b, Z.of_nat (length b)) in
  match o with
  | PyBytes b => checked b
  | PyUnicode s =>
    match utf8_encode s with
    | Some b => checked b
    | None => inl (UnicodeEncodeError, InterpreterMessage)
    end
  | _ => inl (TypeError, InterpreterMessage)
  end.

Inductive BuildFormat : Type := y_hash | s_hash.

(** [Py_BuildValue(fmt, p, n)] for the formats "y#" (a bytes object) and "s#"
    (text, decoded from UTF-8); a [NULL] pointer gives [None].  The length is
    read as an [int]; a negative one counts as absent, and the length is then
    [strlen(p)]. *)
Definition Py_BuildValue (fmt : BuildFormat) (p : ptr) (n : Z) : M (option PyObject) :=
  match p with
  | None => ret (Some PyNone)
  | Some _ =>
    len <- (if n <? 0 then strlen p else ret n) ;;
    if PY_SSIZE_T_MAX <? len then
      PyErr_Raise (OverflowError, InterpreterMessage) ;;; ret None
    else
      bs <- load p len ;;
      match fmt with
      | y_hash => ret (Some (PyBytes bs))
      | s_hash =>
        match utf8_decode bs with
        | Some s => ret (Some (PyUnicode s))
        | None => PyErr_Raise (UnicodeDecodeError, InterpreterMessage) ;;; ret None
        end
      end
  end.

(** [PyArg_ParseTupleAndKeywords(args, kwargs, "s#s#|dnd", g_kwlist, ...)]:
    the converters run in order; an absent optional argument leaves the
    local's initial value. *)
Definition parse_crypt_args (a : CryptArgs) (maxtime0 : float) (maxmem0 : Z)
    (maxmemfrac0 : float) : PyErr + (bytes * Z * bytes * Z * float * Z * float) :=
  match parse_s_hash (a_input a) with
  | inl e => inl e
  | inr (input, inputlen) =>
    match parse_s_hash (a_password a) with
    | inl e => inl e
    | inr (password, passwordlen) =>
      let maxtime := opt_default (a_maxtime a) maxtime0 in
      match match a_maxmem a with
            | Some z => parse_n z
            | None => inr maxmem0
            end with
      | inl e => inl e
      | inr maxmem =>
        let maxmemfrac := opt_default (a_maxmemfrac a) maxmemfrac0 in
        inr (input, inputlen, password, passwordlen, maxtime, maxmem, maxmemfrac)
      end
    end
  end.

Definition scrypt_encrypt (a : CryptArgs) : M (option PyObject) :=
  match parse_crypt_args a g_maxtime_default_enc g_maxmem_default
                         g_maxmemfrac_default_enc with
  | inl e => PyErr_Raise e ;;; ret None
  | inr (input, inputlen, password, passwordlen, maxtime, maxmem, maxmemfrac) =>
    n <- int_add inputlen 129 ;;
    outbuf <- PyMem_Malloc (to_size_t n) ;;
    Py_BEGIN_ALLOW_THREADS ;;;
    errorcode <- call_scryptenc_buf input outbuf password maxmem maxmemfrac maxtime ;;
    Py_END_ALLOW_THREADS ;;;
    value <- (if negb (errorcode =? 0) then
                msg <- error_message errorcode ;;
                PyErr_Format ScryptError msg ;;;
                PyErr_SetNone ScryptError ;;;
                ret None
              else
                m <- int_add inputlen 128 ;;
                Py_BuildValue y_hash outbuf m) ;;
    PyMem_Free outbuf ;;;
    ret value
  end.

Definition scrypt_decrypt (a : CryptArgs) : M (option PyObject) :=
  match parse_crypt_args a g_maxtime_default g_maxmem_default
                         g_maxmemfrac_default with
  | inl e => PyErr_Raise e ;;; ret None
  | inr (input, inputlen, password, passwordlen, maxtime, maxmem, maxmemfrac) =>
    outbuf <- PyMem_Malloc (to_size_t inputlen) ;;
    Py_BEGIN_ALLOW_THREADS ;;;
    rc <- call_scryptdec_buf input outbuf password maxmem maxmemfrac maxtime ;;
    let '(errorcode, outputlen) := rc in
    Py_END_ALLOW_THREADS ;;;
    value <- (if negb (errorcode =? 0) then
                msg <- error_message errorcode ;;
                PyErr_Format ScryptError msg ;;;
                ret None
              else
                Py_BuildValue s_hash outbuf (as_int outputlen)) ;;
    PyMem_Free outbuf ;;;
    ret value
  end.

(** The initial values of the locals [N], [r] and [p]. *)
Definition N_default : Z := to_uint64 (Z.shiftl 1 14).
Definition r_default : Z := 8.
Definition p_default : Z := 1.

(** [PyArg_ParseTupleAndKeywords(args, kwargs, "s#s#|Kkk", g2_kwlist, ...)]. *)
Definition parse_hash_args (a : HashArgs)
    : PyErr + (bytes * Z * bytes * Z * Z * Z * Z) :=
  match parse_s_hash (h_password a) with
  | inl e => inl e
  | inr (password, passwordlen) =>
    match parse_s_hash (h_salt a) with
    | inl e => inl e
    | inr (salt, saltlen) =>
      let N := opt_default (option_map parse_K (h_N a)) N_default in
      let r := opt_default (option_map parse_k (h_r a)) r_default in
      let p := opt_default (option_map parse_k (h_p a)) p_default in
      inr (password, passwordlen, salt, saltlen, N, r, p)
    end
  end.

Definition scrypt_hash (a : HashArgs) : M (option PyObject) :=
  match parse_hash_args a with
  | inl e => PyErr_Raise e ;;; ret None
  | inr (password, passwordlen, salt, saltlen, N, r, p) =>
    outbuf <- PyMem_Malloc 64 ;;
    let outbuflen := 64 in
    Py_BEGIN_ALLOW_THREADS ;;;
    errs <- (if params_wrong N r p then
               emit (EvGuard (-1)) ;;;
               ret (-1, None)
             else
               emit (EvGuard 0) ;;;
               h <- call_crypto_scrypt password salt N r p outbuf outbuflen ;;
               ret (0, Some h)) ;;
    let '(paramerror, hasherror) := errs in
    Py_END_ALLOW_THREADS ;;;
    value <- (if negb (paramerror =? 0) then
                PyErr_Format ScryptError hash_params_message ;;;
                ret None
              else
                match hasherror with
                | None => fault UninitialisedRead
                | Some h =>
                  if negb (h =? 0) then
                    PyErr_Format ScryptError hash_failed_message ;;;
                    ret None
                  else
                    Py_BuildValue y_hash outbuf (as_int outbuflen)
                end) ;;
    PyMem_Free outbuf ;;;
    ret value
  end.

End Binding.
End Scrypt3.

(** ** [src/scrypt2.c]: the binding for Python 2 *)

Module Scrypt2.
Section Binding.
Context {L : PrimLib}.

(** Format "S" of [PyArg_ParseTupleAndKeywords]: the argument must be a
    string object ([str] of Python 2, a byte string), and is not converted. *)
Definition parse_S (o : PyObject) : PyErr + bytes :=
  match o with
  | PyBytes b => inr b
  | _ => inl (TypeError, InterpreterMessage)
  end.

(** [Py_BuildValue("z#", p, n)]: a string object of the [n] bytes at [p];
    a [NULL] pointer gives [None].  The length is read as an [int]; a negative
    one counts as absent, and the length is then [strlen(p)]. *)
Definition Py_BuildValue_z_hash (p : ptr) (n : Z) : M (option PyObject) :=
  match p with
  | None => ret (Some PyNone)
  | Some _ =>
    len <- (if n <? 0 then strlen p else ret n) ;;
    if PY_SSIZE_T_MAX <? len then
      PyErr_Raise (OverflowError, InterpreterMessage) ;;; ret None
    else
      bs <- load p len ;;
      ret (Some (PyBytes bs))
  end.

(** [PyArg_ParseTupleAndKeywords(args, kwargs, "SS|dnd", g_kwlist, ...)]. *)
Definition parse_crypt_args (a : CryptArgs) (maxtime0 : float) (maxmem0 : Z)
    (maxmemfrac0 : float) : PyErr + (bytes * bytes * float * Z * float) :=
  match parse_S (a_input a) with
  | inl e => inl e
  | inr input =>
    match parse_S (a_password a) with
    | inl e => inl e
    | inr password =>
      let maxtime := opt_default (a_maxtime a) maxtime0 in
      match match a_maxmem a with
            | Some z => parse_n z
            | None => inr maxmem0
            end with
      | inl e => inl e
      | inr maxmem =>
        let maxmemfrac := opt_default (a_maxmemfrac a) maxmemfrac0 in
        inr (input, password, maxtime, maxmem, maxmemfrac)
      end
    end
  end.

(** [PyString_Size(o)], a [Py_ssize_t]. *)
Definition PyString_Size (b : bytes) : Z := Z.of_nat (length b).

Definition scrypt_encrypt (a : CryptArgs) : M (option PyObject) :=
  match parse_crypt_args a g_maxtime_default_enc g_maxmem_default
                         g_maxmemfrac_default_enc with
  | inl e => PyErr_Raise e ;;; ret None
  | inr (input, password, maxtime, maxmem, maxmemfrac) =>
    Py_INCREF ;;;
    Py_INCREF ;;;
    let inputlen := as_int (PyString_Size input) in
    let passwordlen := as_int (PyString_Size password) in
    n <- int_add inputlen 129 ;;
    outbuf <- PyMem_Malloc (to_size_t n) ;;
    Py_BEGIN_ALLOW_THREADS ;;;
    PyString_AsString ;;;
    PyString_AsString ;;;
    errorcode <- call_scryptenc_buf input outbuf password maxmem maxmemfrac maxtime ;;
    Py_END_ALLOW_THREADS ;;;
    Py_DECREF ;;;
    Py_DECREF ;;;
    value <- (if negb (errorcode =? 0) then
                msg <- error_message errorcode ;;
                PyErr_Format ScryptError msg ;;;
                PyErr_SetNone ScryptError ;;;
                ret None
              else
                m <- int_add inputlen 128 ;;
                Py_BuildValue_z_hash outbuf m) ;;
    PyMem_Free outbuf ;;;
    ret value
  end.

Definition scrypt_decrypt (a : CryptArgs) : M (option PyObject) :=
  match parse_crypt_args a g_maxtime_default g_maxmem_default
                         g_maxmemfrac_default with
  | inl e => PyErr_Raise e ;;; ret None
  | inr (input, password, maxtime, maxmem, maxmemfrac) =>
    Py_INCREF ;;;
    Py_INCREF ;;;
    let inputlen := to_size_t (PyString_Size input) in
    let passwordlen := to_size_t (PyString_Size password) in
    outbuf <- PyMem_Malloc inputlen ;;
    Py_BEGIN_ALLOW_THREADS ;;;
    PyString_AsString ;;;
    PyString_AsString ;;;
    rc <- call_scryptdec_buf input outbuf password maxmem maxmemfrac maxtime ;;
    let '(errorcode, outputlen) := rc in
    Py_END_ALLOW_THREADS ;;;
    Py_DECREF ;;;
    Py_DECREF ;;;
    value <- (if negb (errorcode =? 0) then
                msg <- error_message errorcode ;;
                PyErr_Format ScryptError msg ;;;
                ret None
              else
                Py_BuildValue_z_hash outbuf (as_int outputlen)) ;;
    PyMem_Free outbuf ;;;
    ret value
  end.

(** The initial values of the locals [N], [r] and [p]. *)
Definition N_default : Z := 1024.
Definition r_default : Z := 1.
Definition p_default : Z := 1.

(** [PyArg_ParseTupleAndKeywords(args, kwargs, "SS|Kkk", g2_kwlist, ...)]. *)
Definition parse_hash_args (a : HashArgs) : PyErr + (bytes * bytes * Z * Z * Z) :=
  match parse_S (h_password a) with
  | inl e => inl e
  | inr password =>
    match parse_S (h_salt a) with
    | inl e => inl e
    | inr salt =>
      let N := opt_default (option_map parse_K (h_N a)) N_default in
      let r := opt_default (option_map parse_k (h_r a)) r_default in
      let p := opt_default (option_map parse_k (h_p a)) p_default in
      inr (password, salt, N, r, p)
    end
  end.

Definition scrypt_hash (a : HashArgs) : M (option PyObject) :=
  match parse_hash_args a with
  | inl e => PyErr_Raise e ;;; ret None
  | inr (password, salt, N, r, p) =>
    Py_INCREF ;;;
    Py_INCREF ;;;
    let passwordlen := to_size_t (PyString_Size password) in
    let saltlen := to_size_t (PyString_Size salt) in
    outbuf <- PyMem_Malloc 64 ;;
    let outbuflen := 64 in
    Py_BEGIN_ALLOW_THREADS ;;;
    errs <- (if params_wrong N r p then
               emit (EvGuard (-1)) ;;;
               ret (-1, None)
             else
               emit (EvGuard 0) ;;;
               PyString_AsString ;;;
               PyString_AsString ;;;
               h <- call_crypto_scrypt password salt N r p outbuf outbuflen ;;
               ret (0, Some h)) ;;
    let '(paramerror, hasherror) := errs in
    Py_END_ALLOW_THREADS ;;;
    Py_DECREF ;;;
    Py_DECREF ;;;
    value <- (if negb (paramerror =? 0) then
                PyErr_Format ScryptError hash_params_message ;;;
                ret None
              else
                match hasherror with
                | None => fault UninitialisedRead
                | Some h =>
                  if negb (h =? 0) then
                    PyErr_Format ScryptError hash_failed_message ;;;
                    ret None
                  else
                    Py_BuildValue_z_hash outbuf (as_int outbuflen)
                end) ;;
    PyMem_Free outbuf ;;;
    ret value
  end.

End Binding.
End Scrypt2.

(** ** Observing a call *)

Section Observe.
Context {L : PrimLib}.

(** What the Python caller sees: a value, an exception (the function returned
    [NULL]; the exception is the error indicator), or nothing defined. *)
Inductive Outcome : Type :=
| Returned (v : PyObject)
| Raised (e : option PyErr)
| Undefined (k : FaultKind).

Definition outcome (r : Res (option PyObject)) : Outcome :=
  match r with
  | Done (Some v) _ => Returned v
  | Done None w => Raised (err_indicator w)
  | Fault k _ => Undefined k
  end.

Definition final_world {A} (r : Res A) : World :=
  match r with Done _ w => w | Fault _ w => w end.

(** The events a call added to the trace of the state [w] it started in. *)
Definition new_events {A} (w : World) (r : Res A) : list Event :=
  drop (length (trace w)) (trace (final_world r)).

(** The blocks a trace allocates, and those it releases ([NULL] left out). *)
Fixpoint mallocs (evs : list Event) : list positive :=
  match evs with
  | [] => []
  | EvMalloc _ (Some b) :: t => b :: mallocs t
  | _ :: t => mallocs t
  end.

Fixpoint frees (evs : list Event) : list positive :=
  match evs with
  | [] => []
  | EvFree (Some b) :: t => b :: frees t
  | _ :: t => frees t
  end.

(** A call that ran to its end from [w] left the heap as it found it, and
    released, once, the one block it allocated, if any; a call that met
    undefined behaviour did not meet it by releasing a block twice. *)
Definition released_once {A} (w : World) (r : Res A) : Prop :=
  match r with
  | Done _ w' =>
    heap w' = heap w
    /\ exists evs, trace w' = trace w ++ evs
                   /\ frees evs = mallocs evs /\ (length (mallocs evs) <= 1)%nat
  | Fault k _ => k <> DoubleFree
  end.

Definition is_malloc (ev : Event) : bool :=
  match ev with EvMalloc _ _ => true | _ => false end.
Definition is_guard (ev : Event) : bool :=
  match ev with EvGuard _ => true | _ => false end.
Definition is_primitive (ev : Event) : bool :=
  match ev with
  | EvScryptencBuf | EvScryptdecBuf | EvCryptoScrypt _ _ _ => true
  | _ => false
  end.

(** The calls of the container primitives, the one of which reads the entropy
    device. *)
Definition is_container_call (ev : Event) : bool :=
  match ev with
  | EvScryptencBuf | EvScryptdecBuf => true
  | _ => false
  end.

(** Position of the first event of a kind. *)
Fixpoint first_index (f : Event -> bool) (evs : list Event) : option nat :=
  match evs with
  | [] => None
  | ev :: t => if f ev then Some O else option_map S (first_index f t)
  end.

(** [before f g evs]: an event of kind [f] occurs, and no event of kind [g]
    occurs at or before the first of them. *)
Definition before (f g : Event -> bool) (evs : list Event) : bool :=
  match first_index f evs, first_index g evs with
  | Some i, Some j => (i <? j)%nat
  | Some _, None => true
  | None, _ => false
  end.

(** What the primitive library is trusted with. *)

(** On success [crypto_scrypt] has filled its buffer. *)
Definition crypto_scrypt_fills : Prop :=
  forall pw salt N r p n e,
    fst (crypto_scrypt pw salt N r p n e) = 0 ->
    length (snd (crypto_scrypt pw salt N r p n e)) = Z.to_nat n.

(** [crypto_scrypt] reads nothing from the host. *)
Definition crypto_scrypt_deterministic : Prop :=
  forall pw salt N r p n e1 e2,
    crypto_scrypt pw salt N r p n e1 = crypto_scrypt pw salt N r p n e2.

(** On success [scryptenc_buf] has written the container: 128 bytes more than
    its input. *)
Definition scryptenc_buf_fills : Prop :=
  forall inbuf pw maxmem maxmemfrac maxtime e,
    fst (fst (scryptenc_buf inbuf pw maxmem maxmemfrac maxtime e)) = 0 ->
    length (snd (fst (scryptenc_buf inbuf pw maxmem maxmemfrac maxtime e)))
    = (length inbuf + 128)%nat.


(** The block [scrypt_decrypt] allocated, once the primitive has written [out]
    at its start. *)
Definition buffer_after (w : World) (capacity : nat) (out : bytes) : bytes :=
  out ++ drop (length out) (junk_bytes (junk w) (Z.of_nat capacity)).

(** Where the test on [N], [r], [p] sits in a call of [scrypt_hash] that
    started in [w] and ended as [res]: after the allocation, before any call
    of a primitive; and a rejection raises the module's error about the
    parameters, calls no primitive and leaves the heap as it was. *)
Definition guard_in_place (w : World) (res : Res (option PyObject)) (N r p : Z) : Prop :=
  before is_malloc is_guard (new_events w res) = true
  /\ before is_guard is_primitive (new_events w res) = true
  /\ (params_wrong N r p = true ->
      outcome res = Raised (Some (ScryptError, Message hash_params_message))
      /\ first_index is_primitive (new_events w res) = None
      /\ heap (final_world res) = heap w).


(** Reading a trace with the GIL in mind, from the state [held]: the GIL is
    released only when held and taken back only when released, the primitives
    run while it is released, and the interpreter's allocator, reference
    counts and string accessors are used while it is held.  The result is whether the GIL is held
    at the end; [None] when the trace breaks one of these rules. *)
Fixpoint gil_discipline (held : bool) (evs : list Event) : option bool :=
  match evs with
  | [] => Some held
  | ev :: t =>
    match ev with
    | EvSaveThread => if held then gil_discipline false t else None
    | EvRestoreThread => if held then None else gil_discipline true t
    | EvScryptencBuf | EvScryptdecBuf | EvCryptoScrypt _ _ _ =>
      if held then None else gil_discipline held t
    | EvMalloc _ _ | EvFree _ | EvIncref | EvDecref | EvPyStringAsString =>
      if held then gil_discipline held t else None
    | EvGuard _ => gil_discipline held t
    end
  end.

(** References taken and given back in a trace. *)
Fixpoint increfs (evs : list Event) : nat :=
  match evs with
  | [] => O
  | EvIncref :: t => S (increfs t)
  | _ :: t => increfs t
  end.
Fixpoint decrefs (evs : list Event) : nat :=
  match evs with
  | [] => O
  | EvDecref :: t => S (decrefs t)
  | _ :: t => decrefs t
  end.

(** The same call with each budget argument that was left out passed as
    [maxtime], [maxmem], [maxmemfrac]. *)
Definition explicit_budget (maxtime : float) (maxmem : Z) (maxmemfrac : float)
    (a : CryptArgs) : CryptArgs :=
  {| a_input := a_input a; a_password := a_password a;
     a_maxtime := Some (opt_default (a_maxtime a) maxtime);
     a_maxmem := Some (opt_default (a_maxmem a) maxmem);
     a_maxmemfrac := Some (opt_default (a_maxmemfrac a) maxmemfrac) |}.

Definition is_byte_string (o : PyObject) : bool :=
  match o with PyBytes _ => true | _ => false end.
Definition is_text_or_bytes (o : PyObject) : bool :=
  match o with PyBytes _ | PyUnicode _ => true | _ => false end.

(** A call that started in [w] and ended as [r] kept the rules of the GIL:
    when it ran to its end the GIL is held again; when it met undefined
    behaviour, no rule was broken before. *)
Definition gil_kept {A} (w : World) (r : Res A) : Prop :=
  match r with
  | Done _ w' =>
    gil_discipline true (new_events w r) = Some true
    /\ (gil_held w = true -> gil_held w' = true)
  | Fault _ _ => gil_discipline true (new_events w r) <> None
  end.

(** The trace without the calls of [PyString_AsString]. *)
Fixpoint string_accesses_dropped (evs : list Event) : list Event :=
  match evs with
  | [] => []
  | EvPyStringAsString :: t => string_accesses_dropped t
  | ev :: t => ev :: string_accesses_dropped t
  end.

(** The same, the calls of [PyString_AsString] left aside. *)
Definition gil_kept_but_for_strings {A} (w : World) (r : Res A) : Prop :=
  match r with
  | Done _ w' =>
    gil_discipline true (string_accesses_dropped (new_events w r)) = Some true
    /\ (gil_held w = true -> gil_held w' = true)
  | Fault _ _ =>
    gil_discipline true (string_accesses_dropped (new_events w r)) <> None
  end.

(** A call from [w], with the GIL held, that broke one of the rules. *)
Definition gil_broken {A} (w : World) (r : Res A) : Prop :=
  gil_discipline true (new_events w r) = None.

(** A call that ran to its end gave back as many references as it took. *)
Definition refs_given_back {A} (w : World) (r : Res A) : Prop :=
  match r with
  | Done _ _ => decrefs (new_events w r) = increfs (new_events w r)
  | Fault _ _ => (decrefs (new_events w r) <= increfs (new_events w r))%nat
  end.

End Observe.

(** ** A small primitive library to run the bindings on

    It keeps the shape of the real container: a 96-byte header that starts
    with the magic "scrypt" and holds a 32-byte salt read from the entropy
    device, the payload, and a 32-byte tag that depends on the password. *)

Module Toy.

Fixpoint bytes_eqb (a b : bytes) : bool :=
  match a, b with
  | [], [] => true
  | x :: a', y :: b' => Byte.eqb x y && bytes_eqb a' b'
  | _, _ => false
  end.

Definition magic : bytes := list_byte_of_string "scrypt".

Definition tag (passwd : bytes) : bytes :=
  take 32 (passwd ++ repeat Byte.x00 32).

Definition header (salt : bytes) : bytes :=
  magic ++ [Byte.x00; Byte.x0e; Byte.x00; Byte.x00; Byte.x00; Byte.x08;
            Byte.x00; Byte.x00; Byte.x00; Byte.x01] ++ salt ++ repeat Byte.x00 48.

(** The environment is the entropy still to be read. *)
Definition enc (inbuf passwd : bytes) (maxmem : Z) (maxmemfrac maxtime : float)
    (e : bytes) : Z * bytes * bytes :=
  if (length e <? 32)%nat then (4, [], e)
  else (0, header (take 32 e) ++ inbuf ++ tag passwd, drop 32 e).

Definition dec (inbuf passwd : bytes) (maxmem : Z) (maxmemfrac maxtime : float)
    (e : bytes) : Z * bytes * Z * bytes :=
  if (length inbuf <? 128)%nat then (7, [], 0, e)
  else if negb (bytes_eqb (take 6 inbuf) magic) then (7, [], 0, e)
  else if negb (bytes_eqb (drop (length inbuf - 32) inbuf) (tag passwd))
       then (11, [], 0, e)
  else (0, take (length inbuf - 128) (drop 96 inbuf),
        Z.of_nat (length inbuf - 128), e).

(** Like the real [crypto_scrypt], it refuses [r * p >= 2^30] (computed in 64
    bits) with -1; its output repeats the password, the salt and the cost
    parameters. *)
Definition kdf (passwd salt : bytes) (N r p buflen : Z) (e : bytes) : Z * bytes :=
  if 2^30 <=? r * p then (-1, [])
  else
    let material :=
      passwd ++ salt ++ [byte_of_N (Z.to_N (Z.log2 N)); byte_of_N (Z.to_N (r mod 256));
                         byte_of_N (Z.to_N (p mod 256))] in
    (0, map (fun i => nth (i mod length material) material Byte.x00)
            (seq 0 (Z.to_nat buflen))).

#[export] Instance lib : PrimLib := {|
  Env := bytes;
  scryptenc_buf := enc;
  scryptdec_buf := dec;
  crypto_scrypt := kdf
|}.

(** A decryption primitive that reports more bytes than the buffer holds. *)
Definition dec_long (inbuf passwd : bytes) (maxmem : Z) (maxmemfrac maxtime : float)
    (e : bytes) : Z * bytes * Z * bytes :=
  (0, take (length inbuf) (list_byte_of_string "abc"), Z.of_nat (length inbuf) + 2, e).

Definition lib_long : PrimLib := {|
  Env := bytes;
  scryptenc_buf := enc;
  scryptdec_buf := dec_long;
  crypto_scrypt := kdf
|}.

(** A quiet interpreter: nothing allocated, no error pending, the GIL held. *)
Definition world0 {L : PrimLib} (e : @Env L) : @World L :=
  mkWorld ∅ PY_SSIZE_T_MAX (fun _ => Byte.xaa) None true [] e.

Definition entropy : bytes := repeat Byte.x11 32.

(** The quiet interpreter on a host with no entropy left, for each library. *)
Definition quiet : @World lib := world0 (L := lib) [].
Definition quiet_long : @World lib_long := world0 (L := lib_long) [].

Definition crypt_args (input password : PyObject) : CryptArgs :=
  {| a_input := input; a_password := password;
     a_maxtime := None; a_maxmem := None; a_maxmemfrac := None |}.

Definition hash_args (password salt : PyObject) (N r p : option Z) : HashArgs :=
  {| h_password := password; h_salt := salt; h_N := N; h_r := r; h_p := p |}.

Definition pw : PyObject := PyBytes (list_byte_of_string "pw").
Definition salt : PyObject := PyBytes (list_byte_of_string "salt").

(** The ciphertext an entry point returned, or the empty one. *)
Definition value_of (r : Res (option PyObject)) : PyObject :=
  match r with
  | Done (Some v) _ => v
  | _ => PyNone
  end.

(** Encrypting [p] under [k] with plenty of entropy, then decrypting the value
    that came back under [k] again, in the state encryption left. *)
Definition encrypted3 (p k : PyObject) : Res (option PyObject) :=
  Scrypt3.scrypt_encrypt (crypt_args p k) (world0 (L := lib) entropy).
Definition encrypted2 (p k : PyObject) : Res (option PyObject) :=
  Scrypt2.scrypt_encrypt (crypt_args p k) (world0 (L := lib) entropy).

(** Calls of [hash]: cost parameters whose product is [2^40]; an [N] that is
    no power of two; no cost parameters at all. *)
Definition big_rp_args : HashArgs :=
  hash_args pw salt (Some 16) (Some (2^20)) (Some (2^20)).
Definition odd_N_args : HashArgs := hash_args pw salt (Some 3) None None.
Definition default_args : HashArgs := hash_args pw salt None None None.

Definition hi : PyObject := PyBytes (list_byte_of_string "hi").
Definition xyz : PyObject := PyBytes (list_byte_of_string "xyz").

(** The bytes of a byte string, and the container [encrypted2 hi pw] returned. *)
Definition bytes_of (o : PyObject) : bytes :=
  match o with PyBytes b => b | _ => [] end.
Definition container : bytes := bytes_of (value_of (encrypted2 hi pw)).

(** A text plaintext, 'h' and e with an acute accent, and the container the
    Python 3 binding returned for it; the container the Python 2 binding
    returned for the byte 0xff. *)
Definition text : PyObject := PyUnicode [104%N; 233%N].
Definition container_text : bytes := bytes_of (value_of (encrypted3 text pw)).
Definition container_ff : bytes :=
  bytes_of (value_of (encrypted2 (PyBytes [Byte.xff]) pw)).

(** Another interpreter state: a block already live, other garbage in fresh
    memory, an error pending, other entropy. *)
Definition world1 : @World lib :=
  mkWorld {[ 1%positive := [Byte.x01; Byte.x02] ]} 4096 (fun _ => Byte.x55)
          (Some (TypeError, InterpreterMessage)) true [EvSaveThread; EvRestoreThread]
          [Byte.x07].

(** Container primitives that return a code their callers have no message
    for. *)
Definition enc_bad (inbuf passwd : bytes) (maxmem : Z) (maxmemfrac maxtime : float)
    (e : bytes) : Z * bytes * bytes := (14, [], e).
Definition dec_bad (inbuf passwd : bytes) (maxmem : Z) (maxmemfrac maxtime : float)
    (e : bytes) : Z * bytes * Z * bytes := (-1, [], 0, e).

Definition lib_bad : PrimLib := {|
  Env := bytes;
  scryptenc_buf := enc_bad;
  scryptdec_buf := dec_bad;
  crypto_scrypt := kdf
|}.

Definition quiet_bad : @World lib_bad := world0 (L := lib_bad) [].

(** An interpreter whose allocator serves at most 16 bytes. *)
Definition cramped : @World lib :=
  mkWorld ∅ 16 (fun _ => Byte.xaa) None true [] entropy.

(** A decryption primitive that writes 'a', a zero byte and 'b', and reports
    the length [2^32 - 1], which is -1 as an [int]. *)
Definition dec_neg (inbuf passwd : bytes) (maxmem : Z) (maxmemfrac maxtime : float)
    (e : bytes) : Z * bytes * Z * bytes :=
  (0, take (length inbuf) [Byte.x61; Byte.x00; Byte.x62], 2^32 - 1, e).

Definition lib_neg : PrimLib := {|
  Env := bytes;
  scryptenc_buf := enc;
  scryptdec_buf := dec_neg;
  crypto_scrypt := kdf
|}.

Definition quiet_neg : @World lib_neg := world0 (L := lib_neg) [].

End Toy.


(** * Properties *)

(** *** UTF-8: decoding undoes encoding *)








Section Proofs.
Context {L : PrimLib}.


(** *** Symbolic execution of a binding *)

Lemma fresh_block_free (h : gmap positive bytes) : h !! fresh (dom h) = None.
Proof. apply not_elem_of_dom, is_fresh. Qed.

Lemma free_after_writes (h : gmap positive bytes) (x y : bytes) :
  delete (fresh (dom h)) (<[fresh (dom h) := x]> (<[fresh (dom h) := y]> h)) = h.
Proof.
  rewrite insert_insert_eq, delete_insert_eq. apply delete_id, fresh_block_free.
Qed.

Lemma free_after_malloc (h : gmap positive bytes) (y : bytes) :
  delete (fresh (dom h)) (<[fresh (dom h) := y]> h) = h.
Proof. rewrite delete_insert_eq. apply delete_id, fresh_block_free. Qed.

Ltac exec_unfold :=
  cbv beta iota zeta delta
    [bind ret fault PyErr_Raise PyErr_Format PyErr_SetNone int_add
     PyMem_Malloc PyMem_Free store load
     Py_BEGIN_ALLOW_THREADS Py_END_ALLOW_THREADS Py_INCREF Py_DECREF emit
     PyString_AsString strlen
     call_scryptenc_buf call_scryptdec_buf call_crypto_scrypt error_message
     Scrypt3.Py_BuildValue Scrypt2.Py_BuildValue_z_hash
     final_world outcome new_events
     set_heap set_err set_gil set_env log
     heap malloc_limit junk err_indicator gil_held trace env].

Ltac innermost_scrutinee x k :=
  lazymatch x with
  | context [match ?y with _ => _ end] => innermost_scrutinee y k
  | _ => k x
  end.

Ltac exec_step :=
  match goal with
  | |- context [as_int 64] => change (as_int 64) with 64
  | |- context [64 <? 0] => change (64 <? 0) with false
  | |- context [0 <=? 64] => change (0 <=? 64) with true
  | |- context [negb (-1 =? 0)] => change (negb (-1 =? 0)) with true
  | |- context [negb (0 =? 0)] => change (negb (0 =? 0)) with false
  | |- context [<[?b := ?x]> ?h !! ?b] => rewrite (lookup_insert_eq h b x)
  | |- context [match ?x with _ => _ end] =>
    innermost_scrutinee x ltac:(fun y => destruct y eqn:?)
  end; exec_unfold.

Ltac exec := exec_unfold; repeat exec_step.

(** The same, reading the tests the hypotheses already settle. *)
Ltac exec_hyp_step :=
  match goal with
  | H : ?x = _ |- context [match ?x with _ => _ end] => rewrite H
  end; exec_unfold.

Ltac exec_with_hyps := exec_unfold; repeat first [ exec_hyp_step | exec_step ].

Lemma length_junk_bytes (j : nat -> Byte.byte) (n : Z) :
  length (junk_bytes j n) = Z.to_nat n.
Proof. unfold junk_bytes. now rewrite length_map, length_seq. Qed.

(** Boolean tests in the hypotheses, read as (in)equalities. *)
Ltac bool_hyps :=
  repeat match goal with
  | H : _ /\ _ |- _ => destruct H
  | H : _ \/ _ |- _ => destruct H
  | H : negb _ = true |- _ => apply negb_true_iff in H
  | H : negb _ = false |- _ => apply negb_false_iff in H
  | H : _ && _ = true |- _ => apply andb_true_iff in H
  | H : _ && _ = false |- _ => apply andb_false_iff in H
  | H : (_ <=? _) = true |- _ => apply Z.leb_le in H
  | H : (_ <=? _) = false |- _ => apply Z.leb_gt in H
  | H : (_ <? _) = true |- _ => apply Z.ltb_lt in H
  | H : (_ <? _) = false |- _ => apply Z.ltb_ge in H
  | H : (_ =? _) = true |- _ => apply Z.eqb_eq in H
  | H : (_ =? _) = false |- _ => apply Z.eqb_neq in H
  | H : (_ <=? _)%nat = true |- _ => apply Nat.leb_le in H
  | H : (_ <=? _)%nat = false |- _ => apply Nat.leb_gt in H
  end.

Ltac bounds :=
  bool_hyps;
  cbv [PY_SSIZE_T_MAX PY_SSIZE_T_MIN INT_MAX] in *;
  repeat rewrite ?length_app, ?length_drop, ?length_junk_bytes, ?length_cons in *;
  cbn [length] in *;
  first [ congruence | lia ].


(** *** Buffer lifecycle *)

Ltac released_once_leaf :=
  cbv [released_once]; exec_unfold;
  first
  [ discriminate
  | split;
    [ first [ reflexivity | apply free_after_writes | apply free_after_malloc ]
    | rewrite <- ?app_assoc; eexists; split;
      [ first [ reflexivity | symmetry; apply app_nil_r ]
      | simpl; split; [ reflexivity | lia ] ] ] ].

Lemma scrypt3_encrypt_released_once a w :
  released_once w (Scrypt3.scrypt_encrypt a w).
Proof. unfold Scrypt3.scrypt_encrypt. exec; released_once_leaf. Qed.

Lemma scrypt3_decrypt_released_once a w :
  released_once w (Scrypt3.scrypt_decrypt a w).
Proof. unfold Scrypt3.scrypt_decrypt. exec; released_once_leaf. Qed.

Lemma scrypt3_hash_released_once a w :
  released_once w (Scrypt3.scrypt_hash a w).
Proof. unfold Scrypt3.scrypt_hash. exec; released_once_leaf. Qed.

Lemma scrypt2_encrypt_released_once a w :
  released_once w (Scrypt2.scrypt_encrypt a w).
Proof. unfold Scrypt2.scrypt_encrypt. exec; released_once_leaf. Qed.

Lemma scrypt2_decrypt_released_once a w :
  released_once w (Scrypt2.scrypt_decrypt a w).
Proof. unfold Scrypt2.scrypt_decrypt. exec; released_once_leaf. Qed.

Lemma scrypt2_hash_released_once a w :
  released_once w (Scrypt2.scrypt_hash a w).
Proof. unfold Scrypt2.scrypt_hash. exec; released_once_leaf. Qed.


(** *** The test on the cost parameters *)

Lemma land_pred_zero_pow2 (N : Z) :
  1 < N -> Z.land N (N - 1) = 0 -> exists k, 0 < k /\ N = 2^k.
Proof.
  intros HN Hland. exists (Z.log2 N).
  assert (Hk : 0 < Z.log2 N) by (apply Z.log2_pos; lia).
  split; [assumption|].
  destruct (Z.log2_spec N ltac:(lia)) as [Hlo Hhi].
  destruct (Z.eq_dec N (2 ^ Z.log2 N)) as [|Hne]; [assumption|exfalso].
  assert (Hlog : Z.log2 (N - 1) = Z.log2 N)
    by (apply Z.log2_unique; lia).
  assert (Hbit : Z.testbit (Z.land N (N - 1)) (Z.log2 N) = true).
  { rewrite Z.land_spec, Z.bit_log2 by lia.
    rewrite <- Hlog at 1. rewrite Z.bit_log2 by lia. reflexivity. }
  rewrite Hland, Z.bits_0 in Hbit. discriminate Hbit.
Qed.

Lemma pow2_land_pred (k : Z) : 0 <= k -> Z.land (2^k) (2^k - 1) = 0.
Proof.
  intros Hk. change (2^k - 1) with (Z.pred (2^k)). rewrite <- Z.ones_equiv.
  rewrite Z.land_ones by assumption. apply Z_mod_same_full.
Qed.

(** What the test accepts, for [N] a [uint64_t]: a power of two above 1, and
    a product [r * p] that is below [2^30] once reduced modulo [2^32]. *)
Lemma params_wrong_spec (N r p : Z) :
  0 <= N < 2^64 ->
  params_wrong N r p = false
  <-> (r * p) mod 2^32 < 2^30 /\ exists k, 0 < k /\ N = 2^k.
Proof.
  intros HN. unfold params_wrong, to_uint32, to_uint64, to_unsigned.
  rewrite !orb_false_iff, negb_false_iff, Z.leb_gt, Z.leb_gt, Z.eqb_eq.
  split.
  - intros [[Hrp H1] Hland]. split; [assumption|].
    rewrite Z.mod_small in Hland by lia.
    now apply land_pred_zero_pow2.
  - intros [Hrp (k & Hk & ->)].
    assert (1 < 2^k) by (apply Z.pow_gt_1; lia).
    repeat split; [assumption | lia |].
    rewrite Z.mod_small by lia. apply pow2_land_pred. lia.
Qed.

(** *** The guard of [scrypt_hash] *)

Ltac events_leaf :=
  rewrite <- ?app_assoc; rewrite ?drop_app_length, ?drop_all; simpl.

Lemma scrypt3_hash_guard_order a w pw pl salt sl N r p :
  Scrypt3.parse_hash_args a = inr (pw, pl, salt, sl, N, r, p) ->
  guard_in_place w (Scrypt3.scrypt_hash a w) N r p.
Proof.
  intros Hparse. unfold guard_in_place, Scrypt3.scrypt_hash. rewrite Hparse.
  exec; events_leaf; (split; [reflexivity|split; [reflexivity|]]);
    intros Hw; try discriminate Hw;
    (split; [reflexivity|split; [reflexivity|]]);
    first [reflexivity | apply free_after_malloc].
Qed.

Lemma scrypt2_hash_guard_order a w pw salt N r p :
  Scrypt2.parse_hash_args a = inr (pw, salt, N, r, p) ->
  guard_in_place w (Scrypt2.scrypt_hash a w) N r p.
Proof.
  intros Hparse. unfold guard_in_place, Scrypt2.scrypt_hash. rewrite Hparse.
  exec; events_leaf; (split; [reflexivity|split; [reflexivity|]]);
    intros Hw; try discriminate Hw;
    (split; [reflexivity|split; [reflexivity|]]);
    first [reflexivity | apply free_after_malloc].
Qed.


(** *** Output of [scrypt_hash] *)

Lemma take_written (out old : bytes) (n : nat) :
  length out = n -> take n (out ++ drop (length out) old) = out.
Proof. intros <-. apply take_app_length. Qed.

Lemma Returned_inj (x y : PyObject) : Returned x = Returned y -> x = y.
Proof. congruence. Qed.

Ltac rc_zero :=
  repeat match goal with
  | H : negb (?z =? 0) = false |- _ =>
    apply negb_false_iff in H; apply Z.eqb_eq in H; subst z
  end.

Ltac use_crypto_scrypt_fills Hfill :=
  match goal with
  | H : crypto_scrypt ?a ?b ?c ?d ?e ?n ?v = (0, ?out) |- _ =>
    let Hf := fresh "Hf" in
    pose proof (Hfill a b c d e n v) as Hf; rewrite H in Hf;
    specialize (Hf eq_refl); cbn [fst snd] in Hf;
    change (Z.to_nat 64) with 64%nat in Hf
  end.

Ltac hash_returned Hfill :=
  exec; intros Hv; try discriminate Hv;
  apply Returned_inj in Hv; subst; rc_zero; use_crypto_scrypt_fills Hfill;
  try discriminate;
  change (Z.to_nat (as_int 64)) with 64%nat;
  match goal with |- exists bs, PyBytes ?x = PyBytes bs /\ _ => exists x end;
  split; [reflexivity|]; rewrite take_written by assumption; assumption.


Lemma scrypt3_hash_returned a w v :
  crypto_scrypt_fills ->
  outcome (Scrypt3.scrypt_hash a w) = Returned v ->
  exists bs, v = PyBytes bs /\ length bs = 64%nat.
Proof. intros Hfill. unfold Scrypt3.scrypt_hash. hash_returned Hfill. Qed.

Lemma scrypt2_hash_returned a w v :
  crypto_scrypt_fills ->
  outcome (Scrypt2.scrypt_hash a w) = Returned v ->
  exists bs, v = PyBytes bs /\ length bs = 64%nat.
Proof. intros Hfill. unfold Scrypt2.scrypt_hash. hash_returned Hfill. Qed.

(** With a buffer to write to, accepted parameters and a primitive that
    reports success, the call does return, and returns what the primitive
    wrote. *)
Ltac hash_succeeds :=
  exec_with_hyps; try (exfalso; bounds);
  change (Z.to_nat 64) with 64%nat; rewrite take_written by assumption;
  reflexivity.

Lemma scrypt3_hash_succeeds a w pw pl salt sl N r p out :
  Scrypt3.parse_hash_args a = inr (pw, pl, salt, sl, N, r, p) ->
  params_wrong N r p = false ->
  64 <= malloc_limit w ->
  crypto_scrypt pw salt N r p 64 (env w) = (0, out) ->
  length out = 64%nat ->
  outcome (Scrypt3.scrypt_hash a w) = Returned (PyBytes out).
Proof.
  intros Hparse Hok Hm Hprim Hlen. unfold Scrypt3.scrypt_hash.
  destruct w as [h lim jk er g tr e]. cbn [malloc_limit env] in Hm, Hprim.
  hash_succeeds.
Qed.

Lemma scrypt2_hash_succeeds a w pw salt N r p out :
  Scrypt2.parse_hash_args a = inr (pw, salt, N, r, p) ->
  params_wrong N r p = false ->
  64 <= malloc_limit w ->
  crypto_scrypt pw salt N r p 64 (env w) = (0, out) ->
  length out = 64%nat ->
  outcome (Scrypt2.scrypt_hash a w) = Returned (PyBytes out).
Proof.
  intros Hparse Hok Hm Hprim Hlen. unfold Scrypt2.scrypt_hash.
  destruct w as [h lim jk er g tr e]. cbn [malloc_limit env] in Hm, Hprim.
  hash_succeeds.
Qed.


(** *** Determinism of [scrypt_hash] *)

Ltac use_deterministic Hdet e1 e2 :=
  repeat match goal with
  | |- context [crypto_scrypt ?a ?b ?c ?d ?e ?n e2] =>
    rewrite (Hdet a b c d e n e2 e1)
  end.

Ltac hash_deterministic Hdet Hfill e1 e2 :=
  exec_unfold;
  repeat (use_deterministic Hdet e1 e2; first [ exec_hyp_step | exec_step ]);
  try reflexivity; try (exfalso; bounds);
  rc_zero; use_crypto_scrypt_fills Hfill; try discriminate;
  try (exfalso; bounds);
  change (Z.to_nat 64) with 64%nat; rewrite !take_written by assumption;
  reflexivity.

Lemma scrypt3_hash_deterministic a w1 w2 :
  crypto_scrypt_deterministic -> crypto_scrypt_fills ->
  64 <= malloc_limit w1 -> 64 <= malloc_limit w2 ->
  outcome (Scrypt3.scrypt_hash a w1) = outcome (Scrypt3.scrypt_hash a w2).
Proof.
  intros Hdet Hfill H1 H2. unfold Scrypt3.scrypt_hash.
  destruct w1 as [h1 lim1 jk1 er1 g1 tr1 e1], w2 as [h2 lim2 jk2 er2 g2 tr2 e2].
  cbn [malloc_limit] in H1, H2.
  destruct (Scrypt3.parse_hash_args a)
    as [err | [[[[[[pw pl] salt] sl] N] r] p]] eqn:Hparse; [reflexivity|].
  hash_deterministic Hdet Hfill e1 e2.
Qed.

Lemma scrypt2_hash_deterministic a w1 w2 :
  crypto_scrypt_deterministic -> crypto_scrypt_fills ->
  64 <= malloc_limit w1 -> 64 <= malloc_limit w2 ->
  outcome (Scrypt2.scrypt_hash a w1) = outcome (Scrypt2.scrypt_hash a w2).
Proof.
  intros Hdet Hfill H1 H2. unfold Scrypt2.scrypt_hash.
  destruct w1 as [h1 lim1 jk1 er1 g1 tr1 e1], w2 as [h2 lim2 jk2 er2 g2 tr2 e2].
  cbn [malloc_limit] in H1, H2.
  destruct (Scrypt2.parse_hash_args a)
    as [err | [[[[pw salt] N] r] p]] eqn:Hparse; [reflexivity|].
  hash_deterministic Hdet Hfill e1 e2.
Qed.

Lemma scrypt3_hash_host_untouched a w :
  env (final_world (Scrypt3.scrypt_hash a w)) = env w
  /\ first_index is_container_call (new_events w (Scrypt3.scrypt_hash a w)) = None.
Proof.
  unfold Scrypt3.scrypt_hash. exec; events_leaf; split; reflexivity.
Qed.

Lemma scrypt2_hash_host_untouched a w :
  env (final_world (Scrypt2.scrypt_hash a w)) = env w
  /\ first_index is_container_call (new_events w (Scrypt2.scrypt_hash a w)) = None.
Proof.
  unfold Scrypt2.scrypt_hash. exec; events_leaf; split; reflexivity.
Qed.


(** *** Output of [scrypt_encrypt] *)

Lemma parse_s_hash_length o b n :
  Scrypt3.parse_s_hash o = inr (b, n) -> n = Z.of_nat (length b) /\ n <= INT_MAX.
Proof.
  unfold Scrypt3.parse_s_hash. intros H.
  destruct o; try discriminate H;
    [| destruct (utf8_encode s); [|discriminate H]];
    (destruct (INT_MAX <? _) eqn:Hlt in H; [discriminate H|]);
    apply Z.ltb_ge in Hlt; injection H as <- <-; auto.
Qed.

Lemma scrypt3_parse_crypt_length a t0 m0 f0 input inputlen password passwordlen
    maxtime maxmem maxmemfrac :
  Scrypt3.parse_crypt_args a t0 m0 f0
  = inr (input, inputlen, password, passwordlen, maxtime, maxmem, maxmemfrac) ->
  inputlen = Z.of_nat (length input) /\ inputlen <= INT_MAX.
Proof.
  unfold Scrypt3.parse_crypt_args. intros H.
  destruct (Scrypt3.parse_s_hash (a_input a)) as [|[i il]] eqn:Hi; [discriminate H|].
  destruct (Scrypt3.parse_s_hash (a_password a)) as [|[k kl]]; [discriminate H|].
  destruct (match a_maxmem a with Some z => parse_n z | None => inr m0 end);
    [discriminate H|].
  injection H as <- <- <- <- <- <- <-. eapply parse_s_hash_length, Hi.
Qed.

Ltac use_scryptenc_buf_fills Hfill :=
  match goal with
  | H : scryptenc_buf ?a ?b ?c ?d ?e ?v = (0, ?out, ?e') |- _ =>
    let Hf := fresh "Hf" in
    pose proof (Hfill a b c d e v) as Hf; rewrite H in Hf;
    specialize (Hf eq_refl); cbn [fst snd] in Hf
  end.

Ltac returns_written :=
  match goal with
  | Hf : length ?o = _ |- context [take ?n (?o ++ ?rest)] =>
    replace (take n (o ++ rest)) with o
      by (symmetry; apply take_written; rewrite Hf; bounds)
  end.

Lemma scrypt3_encrypt_returned a w input inputlen password passwordlen
    maxtime maxmem maxmemfrac v :
  scryptenc_buf_fills ->
  Scrypt3.parse_crypt_args a g_maxtime_default_enc g_maxmem_default
                           g_maxmemfrac_default_enc
  = inr (input, inputlen, password, passwordlen, maxtime, maxmem, maxmemfrac) ->
  outcome (Scrypt3.scrypt_encrypt a w) = Returned v ->
  exists out e',
    scryptenc_buf input password maxmem maxmemfrac maxtime (env w) = (0, out, e')
    /\ v = PyBytes out /\ length out = (length input + 128)%nat.
Proof.
  intros Hfill Hparse. destruct (scrypt3_parse_crypt_length _ _ _ _ _ _ _ _ _ _ _ Hparse)
    as [-> Hmax].
  unfold Scrypt3.scrypt_encrypt. rewrite Hparse.
  exec; intros Hv; try discriminate Hv;
    apply Returned_inj in Hv; subst; rc_zero; use_scryptenc_buf_fills Hfill;
    try (exfalso; cbn [length] in Hf; lia);
    returns_written; eauto.
Qed.

Lemma as_int_fits (len : Z) :
  0 <= len ->
  - 2^31 <= as_int len + 129 ->
  to_size_t (as_int len + 129) <= PY_SSIZE_T_MAX ->
  len + 128 <= to_size_t (as_int len + 129) ->
  as_int len = len.
Proof.
  unfold as_int, to_size_t, to_unsigned, PY_SSIZE_T_MAX.
  destruct (len mod 2^32 <? 2^31) eqn:Hlt;
    [apply Z.ltb_lt in Hlt | apply Z.ltb_ge in Hlt];
    intros; Z.div_mod_to_equations; lia.
Qed.

Lemma scrypt2_encrypt_returned a w input password maxtime maxmem maxmemfrac v :
  scryptenc_buf_fills ->
  Scrypt2.parse_crypt_args a g_maxtime_default_enc g_maxmem_default
                           g_maxmemfrac_default_enc
  = inr (input, password, maxtime, maxmem, maxmemfrac) ->
  outcome (Scrypt2.scrypt_encrypt a w) = Returned v ->
  exists out e',
    scryptenc_buf input password maxmem maxmemfrac maxtime (env w) = (0, out, e')
    /\ v = PyBytes out /\ length out = (length input + 128)%nat.
Proof.
  intros Hfill Hparse.
  unfold Scrypt2.scrypt_encrypt. rewrite Hparse.
  exec; intros Hv; try discriminate Hv;
    apply Returned_inj in Hv; subst; rc_zero; use_scryptenc_buf_fills Hfill;
    try (exfalso; cbn [length] in Hf; lia);
    (assert (Hlen : as_int (Scrypt2.PyString_Size input) = Z.of_nat (length input))
      by (unfold Scrypt2.PyString_Size in *; apply as_int_fits; bounds));
    rewrite Hlen in *;
    first [ exfalso; bounds | returns_written; eauto ].
Qed.


(** *** Output of [scrypt_decrypt] *)

Lemma to_size_t_small (z : Z) : 0 <= z <= PY_SSIZE_T_MAX -> to_size_t z = z.
Proof.
  unfold to_size_t, to_unsigned, PY_SSIZE_T_MAX. intros. apply Z.mod_small. lia.
Qed.

Lemma as_int_range (z : Z) : - 2^31 <= as_int z <= PY_SSIZE_T_MAX.
Proof.
  unfold as_int, PY_SSIZE_T_MAX.
  destruct (z mod 2^32 <? 2^31) eqn:Hlt;
    [apply Z.ltb_lt in Hlt | apply Z.ltb_ge in Hlt];
    Z.div_mod_to_equations; lia.
Qed.

(** A [size_t] reads back as the same number when it is below [2^31], and
    as a negative one from there on. *)
Lemma as_int_size_t (z : Z) :
  0 <= z < 2^32 ->
  (z < 2^31 -> as_int z = z) /\ (2^31 <= z -> as_int z < 0).
Proof.
  intros Hz. unfold as_int. rewrite Z.mod_small by lia.
  destruct (z <? 2^31) eqn:Hlt;
    [apply Z.ltb_lt in Hlt | apply Z.ltb_ge in Hlt]; split; lia.
Qed.

Lemma first_nul_lt (bs : bytes) (m : nat) :
  first_nul bs = Some m -> (m < length bs)%nat.
Proof.
  revert m. induction bs as [|b t IH]; intros m H; cbn [first_nul] in H.
  - discriminate H.
  - destruct (Byte.eqb b Byte.x00).
    + injection H as <-. cbn [length]. lia.
    + destruct (first_nul t) as [k|]; cbn [option_map] in H; [|discriminate H].
      injection H as <-. specialize (IH k eq_refl). cbn [length]. lia.
Qed.

(** When the buffer is served and the primitive reports success and a
    length within the capacity, [scrypt_decrypt] returns what it builds from
    the first bytes of the buffer. *)
Lemma scrypt2_decrypt_succeeds a w input password maxtime maxmem maxmemfrac
    out outlen e' :
  Scrypt2.parse_crypt_args a g_maxtime_default g_maxmem_default g_maxmemfrac_default
  = inr (input, password, maxtime, maxmem, maxmemfrac) ->
  Z.of_nat (length input) <= malloc_limit w ->
  Z.of_nat (length input) <= PY_SSIZE_T_MAX ->
  scryptdec_buf input password maxmem maxmemfrac maxtime (env w)
  = (0, out, outlen, e') ->
  (length out <= length input)%nat ->
  0 <= as_int outlen <= Z.of_nat (length input) ->
  outcome (Scrypt2.scrypt_decrypt a w)
  = Returned (PyBytes (take (Z.to_nat (as_int outlen))
                            (buffer_after w (length input) out))).
Proof.
  intros Hparse Hm Hmax Hprim Hout Hlen.
  unfold Scrypt2.scrypt_decrypt. rewrite Hparse. unfold Scrypt2.PyString_Size.
  rewrite !to_size_t_small by lia.
  destruct w as [h lim jk er g tr e]. cbn [malloc_limit env] in *.
  exec_with_hyps; try reflexivity; exfalso; bounds.
Qed.

Ltac same_decoding :=
  match goal with
  | Hd : utf8_decode ?x = _, Ho : utf8_decode ?y = _ |- _ =>
    change y with x in Ho; rewrite Hd in Ho;
    first [ discriminate Ho | injection Ho as <- ]
  end.

Lemma scrypt3_decrypt_text a w input inputlen password passwordlen
    maxtime maxmem maxmemfrac out outlen e' s :
  Scrypt3.parse_crypt_args a g_maxtime_default g_maxmem_default g_maxmemfrac_default
  = inr (input, inputlen, password, passwordlen, maxtime, maxmem, maxmemfrac) ->
  Z.of_nat (length input) <= malloc_limit w ->
  scryptdec_buf input password maxmem maxmemfrac maxtime (env w)
  = (0, out, outlen, e') ->
  (length out <= length input)%nat ->
  0 <= as_int outlen <= Z.of_nat (length input) ->
  utf8_decode (take (Z.to_nat (as_int outlen)) (buffer_after w (length input) out))
  = Some s ->
  outcome (Scrypt3.scrypt_decrypt a w) = Returned (PyUnicode s).
Proof.
  intros Hparse Hm Hprim Hout Hlen Hdec.
  destruct (scrypt3_parse_crypt_length _ _ _ _ _ _ _ _ _ _ _ Hparse) as [-> Hmax].
  unfold Scrypt3.scrypt_decrypt. rewrite Hparse.
  rewrite to_size_t_small by (cbv [INT_MAX PY_SSIZE_T_MAX] in *; lia).
  destruct w as [h lim jk er g tr e]. cbn [malloc_limit env] in *.
  exec_with_hyps; try reflexivity; try (exfalso; bounds);
    same_decoding; reflexivity.
Qed.

Lemma scrypt3_decrypt_not_text a w input inputlen password passwordlen
    maxtime maxmem maxmemfrac out outlen e' :
  Scrypt3.parse_crypt_args a g_maxtime_default g_maxmem_default g_maxmemfrac_default
  = inr (input, inputlen, password, passwordlen, maxtime, maxmem, maxmemfrac) ->
  Z.of_nat (length input) <= malloc_limit w ->
  scryptdec_buf input password maxmem maxmemfrac maxtime (env w)
  = (0, out, outlen, e') ->
  (length out <= length input)%nat ->
  0 <= as_int outlen <= Z.of_nat (length input) ->
  utf8_decode (take (Z.to_nat (as_int outlen)) (buffer_after w (length input) out))
  = None ->
  outcome (Scrypt3.scrypt_decrypt a w)
  = Raised (Some (UnicodeDecodeError, InterpreterMessage)).
Proof.
  intros Hparse Hm Hprim Hout Hlen Hdec.
  destruct (scrypt3_parse_crypt_length _ _ _ _ _ _ _ _ _ _ _ Hparse) as [-> Hmax].
  unfold Scrypt3.scrypt_decrypt. rewrite Hparse.
  rewrite to_size_t_small by (cbv [INT_MAX PY_SSIZE_T_MAX] in *; lia).
  destruct w as [h lim jk er g tr e]. cbn [malloc_limit env] in *.
  exec_with_hyps; try reflexivity; try (exfalso; bounds);
    same_decoding; reflexivity.
Qed.

(** A reported length beyond the capacity is read as it is. *)
Lemma scrypt3_decrypt_overlong a w input inputlen password passwordlen
    maxtime maxmem maxmemfrac out outlen e' :
  Scrypt3.parse_crypt_args a g_maxtime_default g_maxmem_default g_maxmemfrac_default
  = inr (input, inputlen, password, passwordlen, maxtime, maxmem, maxmemfrac) ->
  Z.of_nat (length input) <= malloc_limit w ->
  scryptdec_buf input password maxmem maxmemfrac maxtime (env w)
  = (0, out, outlen, e') ->
  (length out <= length input)%nat ->
  Z.of_nat (length input) < as_int outlen ->
  outcome (Scrypt3.scrypt_decrypt a w) = Undefined OutOfBoundsRead.
Proof.
  intros Hparse Hm Hprim Hout Hlong. pose proof (as_int_range outlen) as Hint.
  destruct (scrypt3_parse_crypt_length _ _ _ _ _ _ _ _ _ _ _ Hparse) as [-> Hmax].
  unfold Scrypt3.scrypt_decrypt. rewrite Hparse.
  rewrite to_size_t_small by (cbv [INT_MAX PY_SSIZE_T_MAX] in *; lia).
  destruct w as [h lim jk er g tr e]. cbn [malloc_limit env] in *.
  exec_with_hyps; try reflexivity; exfalso; bounds.
Qed.

Lemma scrypt2_decrypt_overlong a w input password maxtime maxmem maxmemfrac
    out outlen e' :
  Scrypt2.parse_crypt_args a g_maxtime_default g_maxmem_default g_maxmemfrac_default
  = inr (input, password, maxtime, maxmem, maxmemfrac) ->
  Z.of_nat (length input) <= malloc_limit w ->
  Z.of_nat (length input) <= PY_SSIZE_T_MAX ->
  scryptdec_buf input password maxmem maxmemfrac maxtime (env w)
  = (0, out, outlen, e') ->
  (length out <= length input)%nat ->
  Z.of_nat (length input) < as_int outlen ->
  outcome (Scrypt2.scrypt_decrypt a w) = Undefined OutOfBoundsRead.
Proof.
  intros Hparse Hm Hmax Hprim Hout Hlong. pose proof (as_int_range outlen) as Hint.
  unfold Scrypt2.scrypt_decrypt. rewrite Hparse. unfold Scrypt2.PyString_Size.
  rewrite !to_size_t_small by lia.
  destruct w as [h lim jk er g tr e]. cbn [malloc_limit env] in *.
  exec_with_hyps; try reflexivity; exfalso; bounds.
Qed.

(** With room for the buffer and a primitive that reports success after
    writing the container, [scrypt_encrypt] does return, and returns the
    container. *)
Lemma scrypt3_encrypt_succeeds a w input inputlen password passwordlen
    maxtime maxmem maxmemfrac out e' :
  Scrypt3.parse_crypt_args a g_maxtime_default_enc g_maxmem_default
                           g_maxmemfrac_default_enc
  = inr (input, inputlen, password, passwordlen, maxtime, maxmem, maxmemfrac) ->
  Z.of_nat (length input) + 129 <= INT_MAX ->
  Z.of_nat (length input) + 129 <= malloc_limit w ->
  scryptenc_buf input password maxmem maxmemfrac maxtime (env w) = (0, out, e') ->
  length out = (length input + 128)%nat ->
  outcome (Scrypt3.scrypt_encrypt a w) = Returned (PyBytes out).
Proof.
  intros Hparse Hint Hm Hprim Hlen.
  destruct (scrypt3_parse_crypt_length _ _ _ _ _ _ _ _ _ _ _ Hparse) as [-> Hmax].
  unfold Scrypt3.scrypt_encrypt. rewrite Hparse.
  assert (Hsz : to_size_t (Z.of_nat (length input) + 129)
                = Z.of_nat (length input) + 129)
    by (apply to_size_t_small; cbv [INT_MAX PY_SSIZE_T_MAX] in *; lia).
  destruct w as [h lim jk er g tr e]. cbn [malloc_limit env] in *.
  exec_with_hyps; rewrite ?Hsz in *; try (exfalso; bounds).
  match goal with
  | |- context [take ?n (?o ++ ?rest)] =>
    replace (take n (o ++ rest)) with o
      by (symmetry; apply take_written; rewrite Hlen; lia)
  end. reflexivity.
Qed.

Lemma as_int_small (z : Z) : 0 <= z <= INT_MAX -> as_int z = z.
Proof.
  unfold as_int, INT_MAX. intros H. rewrite Z.mod_small by lia.
  destruct (z <? 2^31) eqn:Hlt; [reflexivity|]. apply Z.ltb_ge in Hlt. lia.
Qed.

Lemma scrypt2_encrypt_succeeds a w input password maxtime maxmem maxmemfrac out e' :
  Scrypt2.parse_crypt_args a g_maxtime_default_enc g_maxmem_default
                           g_maxmemfrac_default_enc
  = inr (input, password, maxtime, maxmem, maxmemfrac) ->
  Z.of_nat (length input) + 129 <= INT_MAX ->
  Z.of_nat (length input) + 129 <= malloc_limit w ->
  scryptenc_buf input password maxmem maxmemfrac maxtime (env w) = (0, out, e') ->
  length out = (length input + 128)%nat ->
  outcome (Scrypt2.scrypt_encrypt a w) = Returned (PyBytes out).
Proof.
  intros Hparse Hint Hm Hprim Hlen.
  unfold Scrypt2.scrypt_encrypt. rewrite Hparse. unfold Scrypt2.PyString_Size.
  rewrite !as_int_small by lia.
  assert (Hsz : to_size_t (Z.of_nat (length input) + 129)
                = Z.of_nat (length input) + 129)
    by (apply to_size_t_small; cbv [INT_MAX PY_SSIZE_T_MAX] in *; lia).
  destruct w as [h lim jk er g tr e]. cbn [malloc_limit env] in *.
  exec_with_hyps; rewrite ?Hsz in *; try (exfalso; bounds).
  match goal with
  | |- context [take ?n (?o ++ ?rest)] =>
    replace (take n (o ++ rest)) with o
      by (symmetry; apply take_written; rewrite Hlen; lia)
  end. reflexivity.
Qed.

(** *** Round trip *)

Lemma scrypt3_parse_crypt_input a t0 m0 f0 input inputlen password passwordlen
    maxtime maxmem maxmemfrac :
  Scrypt3.parse_crypt_args a t0 m0 f0
  = inr (input, inputlen, password, passwordlen, maxtime, maxmem, maxmemfrac) ->
  Scrypt3.parse_s_hash (a_input a) = inr (input, inputlen).
Proof.
  unfold Scrypt3.parse_crypt_args. intros H.
  destruct (Scrypt3.parse_s_hash (a_input a)) as [|[i il]] eqn:Hi; [discriminate H|].
  destruct (Scrypt3.parse_s_hash (a_password a)) as [|[k kl]]; [discriminate H|].
  destruct (match a_maxmem a with Some z => parse_n z | None => inr m0 end);
    [discriminate H|].
  injection H as <- <- <- <- <- <- <-. reflexivity.
Qed.

Lemma parse_s_hash_text s b n :
  Scrypt3.parse_s_hash (PyUnicode s) = inr (b, n) -> utf8_encode s = Some b.
Proof.
  unfold Scrypt3.parse_s_hash. destruct (utf8_encode s) as [b'|]; [|discriminate].
  destruct (INT_MAX <? _); [discriminate|]. now intros [= <- <-].
Qed.



(** *** Errors *)

Lemma parse_n_error z e : parse_n z = inl e -> fst e <> ScryptError.
Proof.
  unfold parse_n. destruct (_ && _); intros H; [discriminate H|].
  injection H as <-. discriminate.
Qed.

Lemma scrypt3_parse_s_hash_error o e :
  Scrypt3.parse_s_hash o = inl e -> fst e <> ScryptError.
Proof.
  unfold Scrypt3.parse_s_hash. intros H.
  destruct o; try (injection H as <-; discriminate);
    [| destruct (utf8_encode s); [| injection H as <-; discriminate]];
    (destruct (INT_MAX <? _) in H; [injection H as <-; discriminate | discriminate H]).
Qed.

Lemma scrypt3_parse_crypt_error a t0 m0 f0 e :
  Scrypt3.parse_crypt_args a t0 m0 f0 = inl e -> fst e <> ScryptError.
Proof.
  unfold Scrypt3.parse_crypt_args. intros H.
  destruct (Scrypt3.parse_s_hash (a_input a)) as [e1|[i il]] eqn:Hi.
  { injection H as <-. eapply scrypt3_parse_s_hash_error, Hi. }
  destruct (Scrypt3.parse_s_hash (a_password a)) as [e2|[k kl]] eqn:Hk.
  { injection H as <-. eapply scrypt3_parse_s_hash_error, Hk. }
  destruct (a_maxmem a) as [z|]; [|discriminate H].
  destruct (parse_n z) as [e3|] eqn:Hn; [|discriminate H].
  injection H as <-. eapply parse_n_error, Hn.
Qed.

Lemma scrypt2_parse_crypt_error a t0 m0 f0 e :
  Scrypt2.parse_crypt_args a t0 m0 f0 = inl e -> fst e <> ScryptError.
Proof.
  unfold Scrypt2.parse_crypt_args, Scrypt2.parse_S. intros H.
  destruct (a_input a); try (injection H as <-; discriminate).
  destruct (a_password a); try (injection H as <-; discriminate).
  destruct (a_maxmem a) as [z|]; [|discriminate H].
  destruct (parse_n z) as [e3|] eqn:Hn; [|discriminate H].
  injection H as <-. eapply parse_n_error, Hn.
Qed.

Lemma Raised_inj (x y : option PyErr) : Raised x = Raised y -> x = y.
Proof. congruence. Qed.

(** Whatever the primitive library does, [scrypt_encrypt] never raises the
    module's error with a message. *)
Lemma scrypt3_encrypt_never_message a w e m :
  outcome (Scrypt3.scrypt_encrypt a w) = Raised e ->
  e <> Some (ScryptError, Message m).
Proof.
  unfold Scrypt3.scrypt_encrypt.
  destruct (Scrypt3.parse_crypt_args _ _ _ _) as [pe|args] eqn:Hparse.
  - apply scrypt3_parse_crypt_error in Hparse.
    exec; intros Hv; apply Raised_inj in Hv; subst e.
    intros Heq. injection Heq as ->. now apply Hparse.
  - exec; intros Hv; try discriminate Hv; apply Raised_inj in Hv; subst e;
      discriminate.
Qed.

Lemma scrypt2_encrypt_never_message a w e m :
  outcome (Scrypt2.scrypt_encrypt a w) = Raised e ->
  e <> Some (ScryptError, Message m).
Proof.
  unfold Scrypt2.scrypt_encrypt.
  destruct (Scrypt2.parse_crypt_args _ _ _ _) as [pe|args] eqn:Hparse.
  - apply scrypt2_parse_crypt_error in Hparse.
    exec; intros Hv; apply Raised_inj in Hv; subst e.
    intros Heq. injection Heq as ->. now apply Hparse.
  - exec; intros Hv; try discriminate Hv; apply Raised_inj in Hv; subst e;
      discriminate.
Qed.

(** [scrypt_decrypt] does raise it with the message of the code. *)
Lemma scrypt3_decrypt_error_message a w input inputlen password passwordlen
    maxtime maxmem maxmemfrac rc out outlen e' :
  Scrypt3.parse_crypt_args a g_maxtime_default g_maxmem_default g_maxmemfrac_default
  = inr (input, inputlen, password, passwordlen, maxtime, maxmem, maxmemfrac) ->
  Z.of_nat (length input) <= malloc_limit w ->
  scryptdec_buf input password maxmem maxmemfrac maxtime (env w)
  = (rc, out, outlen, e') ->
  (length out <= length input)%nat ->
  1 <= rc <= 13 ->
  exists msg, nth_error g_error_codes (Z.to_nat rc) = Some msg
              /\ outcome (Scrypt3.scrypt_decrypt a w)
                 = Raised (Some (ScryptError, Message msg)).
Proof.
  intros Hparse Hm Hprim Hout Hrc.
  destruct (scrypt3_parse_crypt_length _ _ _ _ _ _ _ _ _ _ _ Hparse) as [-> Hmax].
  unfold Scrypt3.scrypt_decrypt. rewrite Hparse.
  rewrite to_size_t_small by (cbv [INT_MAX PY_SSIZE_T_MAX] in *; lia).
  destruct w as [h lim jk er g tr e]. cbn [malloc_limit env] in *.
  destruct (nth_error g_error_codes (Z.to_nat rc)) as [msg|] eqn:Hmsg.
  - exists msg. split; [reflexivity|].
    exec_with_hyps; try reflexivity; exfalso; bounds.
  - apply nth_error_None in Hmsg. cbn [length g_error_codes] in Hmsg. lia.
Qed.

Lemma scrypt2_decrypt_error_message a w input password maxtime maxmem maxmemfrac
    rc out outlen e' :
  Scrypt2.parse_crypt_args a g_maxtime_default g_maxmem_default g_maxmemfrac_default
  = inr (input, password, maxtime, maxmem, maxmemfrac) ->
  Z.of_nat (length input) <= malloc_limit w ->
  Z.of_nat (length input) <= PY_SSIZE_T_MAX ->
  scryptdec_buf input password maxmem maxmemfrac maxtime (env w)
  = (rc, out, outlen, e') ->
  (length out <= length input)%nat ->
  1 <= rc <= 13 ->
  exists msg, nth_error g_error_codes (Z.to_nat rc) = Some msg
              /\ outcome (Scrypt2.scrypt_decrypt a w)
                 = Raised (Some (ScryptError, Message msg)).
Proof.
  intros Hparse Hm Hmax Hprim Hout Hrc.
  unfold Scrypt2.scrypt_decrypt. rewrite Hparse. unfold Scrypt2.PyString_Size.
  rewrite !to_size_t_small by lia.
  destruct w as [h lim jk er g tr e]. cbn [malloc_limit env] in *.
  destruct (nth_error g_error_codes (Z.to_nat rc)) as [msg|] eqn:Hmsg.
  - exists msg. split; [reflexivity|].
    exec_with_hyps; try reflexivity; exfalso; bounds.
  - apply nth_error_None in Hmsg. cbn [length g_error_codes] in Hmsg. lia.
Qed.

(** *** The GIL and the reference counts *)

Ltac gil_leaf :=
  cbv [gil_kept gil_kept_but_for_strings gil_broken refs_given_back];
  exec_unfold; events_leaf;
  first [ split; [ reflexivity | intros Hheld; first [ reflexivity | exact Hheld ] ]
        | discriminate
        | reflexivity
        | lia ].

Lemma scrypt3_encrypt_gil_kept a w : gil_kept w (Scrypt3.scrypt_encrypt a w).
Proof. unfold Scrypt3.scrypt_encrypt. exec; gil_leaf. Qed.
Lemma scrypt3_decrypt_gil_kept a w : gil_kept w (Scrypt3.scrypt_decrypt a w).
Proof. unfold Scrypt3.scrypt_decrypt. exec; gil_leaf. Qed.
Lemma scrypt3_hash_gil_kept a w : gil_kept w (Scrypt3.scrypt_hash a w).
Proof. unfold Scrypt3.scrypt_hash. exec; gil_leaf. Qed.

(** The Python 2 binding asks the interpreter for the bytes of its string
    arguments inside the region where the GIL is released. *)
Lemma scrypt2_encrypt_gil_apart a w :
  gil_kept_but_for_strings w (Scrypt2.scrypt_encrypt a w).
Proof. unfold Scrypt2.scrypt_encrypt. exec; gil_leaf. Qed.
Lemma scrypt2_decrypt_gil_apart a w :
  gil_kept_but_for_strings w (Scrypt2.scrypt_decrypt a w).
Proof. unfold Scrypt2.scrypt_decrypt. exec; gil_leaf. Qed.
Lemma scrypt2_hash_gil_apart a w :
  gil_kept_but_for_strings w (Scrypt2.scrypt_hash a w).
Proof. unfold Scrypt2.scrypt_hash. exec; gil_leaf. Qed.

Lemma scrypt2_encrypt_gil_broken a w input password maxtime maxmem maxmemfrac :
  Scrypt2.parse_crypt_args a g_maxtime_default_enc g_maxmem_default
                           g_maxmemfrac_default_enc
  = inr (input, password, maxtime, maxmem, maxmemfrac) ->
  Z.of_nat (length input) + 129 <= INT_MAX ->
  gil_broken w (Scrypt2.scrypt_encrypt a w).
Proof.
  intros Hparse Hint.
  unfold Scrypt2.scrypt_encrypt. rewrite Hparse. unfold Scrypt2.PyString_Size.
  rewrite !as_int_small by lia.
  exec; gil_leaf; exfalso; bounds.
Qed.

Lemma scrypt2_decrypt_gil_broken a w input password maxtime maxmem maxmemfrac :
  Scrypt2.parse_crypt_args a g_maxtime_default g_maxmem_default g_maxmemfrac_default
  = inr (input, password, maxtime, maxmem, maxmemfrac) ->
  gil_broken w (Scrypt2.scrypt_decrypt a w).
Proof.
  intros Hparse. unfold Scrypt2.scrypt_decrypt. rewrite Hparse.
  exec; gil_leaf.
Qed.

Lemma scrypt2_hash_gil_broken a w pw salt N r p :
  Scrypt2.parse_hash_args a = inr (pw, salt, N, r, p) ->
  params_wrong N r p = false ->
  gil_broken w (Scrypt2.scrypt_hash a w).
Proof.
  intros Hparse Hok. unfold Scrypt2.scrypt_hash. rewrite Hparse, Hok.
  exec; gil_leaf.
Qed.

Lemma scrypt2_hash_gil_kept_rejected a w pw salt N r p :
  Scrypt2.parse_hash_args a = inr (pw, salt, N, r, p) ->
  params_wrong N r p = true ->
  gil_kept w (Scrypt2.scrypt_hash a w).
Proof.
  intros Hparse Hw. unfold Scrypt2.scrypt_hash. rewrite Hparse, Hw.
  exec; gil_leaf.
Qed.

Lemma scrypt2_encrypt_refs a w : refs_given_back w (Scrypt2.scrypt_encrypt a w).
Proof. unfold Scrypt2.scrypt_encrypt. exec; gil_leaf. Qed.
Lemma scrypt2_decrypt_refs a w : refs_given_back w (Scrypt2.scrypt_decrypt a w).
Proof. unfold Scrypt2.scrypt_decrypt. exec; gil_leaf. Qed.
Lemma scrypt2_hash_refs a w : refs_given_back w (Scrypt2.scrypt_hash a w).
Proof. unfold Scrypt2.scrypt_hash. exec; gil_leaf. Qed.

(** *** Arguments *)

Lemma scrypt3_parse_crypt_explicit a t0 f0 :
  Scrypt3.parse_crypt_args (explicit_budget t0 0 f0 a) t0 0 f0
  = Scrypt3.parse_crypt_args a t0 0 f0.
Proof.
  unfold Scrypt3.parse_crypt_args, explicit_budget.
  cbn [a_input a_password a_maxtime a_maxmem a_maxmemfrac].
  destruct (a_maxtime a), (a_maxmem a), (a_maxmemfrac a); reflexivity.
Qed.

Lemma scrypt2_parse_crypt_explicit a t0 f0 :
  Scrypt2.parse_crypt_args (explicit_budget t0 0 f0 a) t0 0 f0
  = Scrypt2.parse_crypt_args a t0 0 f0.
Proof.
  unfold Scrypt2.parse_crypt_args, explicit_budget.
  cbn [a_input a_password a_maxtime a_maxmem a_maxmemfrac].
  destruct (a_maxtime a), (a_maxmem a), (a_maxmemfrac a); reflexivity.
Qed.

Lemma scrypt2_parse_crypt_type_error a t0 m0 f0 :
  is_byte_string (a_input a) && is_byte_string (a_password a) = false ->
  Scrypt2.parse_crypt_args a t0 m0 f0 = inl (TypeError, InterpreterMessage).
Proof.
  unfold Scrypt2.parse_crypt_args, Scrypt2.parse_S.
  destruct (a_input a), (a_password a); cbn [is_byte_string andb];
    intros H; try discriminate H; reflexivity.
Qed.

Lemma scrypt2_parse_hash_type_error a :
  is_byte_string (h_password a) && is_byte_string (h_salt a) = false ->
  Scrypt2.parse_hash_args a = inl (TypeError, InterpreterMessage).
Proof.
  unfold Scrypt2.parse_hash_args, Scrypt2.parse_S.
  destruct (h_password a), (h_salt a); cbn [is_byte_string andb];
    intros H; try discriminate H; reflexivity.
Qed.

Lemma scrypt3_parse_s_hash_type_error o :
  is_text_or_bytes o = false ->
  Scrypt3.parse_s_hash o = inl (TypeError, InterpreterMessage).
Proof. destruct o; cbn [is_text_or_bytes]; intros H; try discriminate H; reflexivity. Qed.

Lemma scrypt3_parse_crypt_type_error a t0 m0 f0 :
  is_text_or_bytes (a_input a) = false ->
  Scrypt3.parse_crypt_args a t0 m0 f0 = inl (TypeError, InterpreterMessage).
Proof.
  intros H. unfold Scrypt3.parse_crypt_args.
  now rewrite (scrypt3_parse_s_hash_type_error _ H).
Qed.

Lemma scrypt3_parse_hash_type_error a :
  is_text_or_bytes (h_password a) = false ->
  Scrypt3.parse_hash_args a = inl (TypeError, InterpreterMessage).
Proof.
  intros H. unfold Scrypt3.parse_hash_args.
  now rewrite (scrypt3_parse_s_hash_type_error _ H).
Qed.

(** *** Failure of the derivation *)

Lemma scrypt3_hash_fails a w pw pl salt sl N r p rc out :
  Scrypt3.parse_hash_args a = inr (pw, pl, salt, sl, N, r, p) ->
  params_wrong N r p = false ->
  64 <= malloc_limit w ->
  crypto_scrypt pw salt N r p 64 (env w) = (rc, out) ->
  rc <> 0 ->
  (length out <= 64)%nat ->
  outcome (Scrypt3.scrypt_hash a w)
  = Raised (Some (ScryptError, Message hash_failed_message)).
Proof.
  intros Hparse Hok Hm Hprim Hrc Hlen. unfold Scrypt3.scrypt_hash.
  destruct w as [h lim jk er g tr e]. cbn [malloc_limit env] in Hm, Hprim.
  exec_with_hyps; try reflexivity; exfalso; bounds.
Qed.

Lemma scrypt2_hash_fails a w pw salt N r p rc out :
  Scrypt2.parse_hash_args a = inr (pw, salt, N, r, p) ->
  params_wrong N r p = false ->
  64 <= malloc_limit w ->
  crypto_scrypt pw salt N r p 64 (env w) = (rc, out) ->
  rc <> 0 ->
  (length out <= 64)%nat ->
  outcome (Scrypt2.scrypt_hash a w)
  = Raised (Some (ScryptError, Message hash_failed_message)).
Proof.
  intros Hparse Hok Hm Hprim Hrc Hlen. unfold Scrypt2.scrypt_hash.
  destruct w as [h lim jk er g tr e]. cbn [malloc_limit env] in Hm, Hprim.
  exec_with_hyps; try reflexivity; exfalso; bounds.
Qed.

Ltac hash_by_primitive Hfill :=
  exec_with_hyps; intros Hv; try discriminate Hv;
  apply Returned_inj in Hv; subst; rc_zero; use_crypto_scrypt_fills Hfill;
  try discriminate;
  (split; [reflexivity|]); eexists; (split; [reflexivity|]);
  change (Z.to_nat 64) with 64%nat; rewrite take_written by assumption;
  reflexivity.

Lemma scrypt3_hash_returned_by_primitive a w pw pl salt sl N r p v :
  crypto_scrypt_fills ->
  Scrypt3.parse_hash_args a = inr (pw, pl, salt, sl, N, r, p) ->
  outcome (Scrypt3.scrypt_hash a w) = Returned v ->
  params_wrong N r p = false
  /\ exists out, crypto_scrypt pw salt N r p 64 (env w) = (0, out) /\ v = PyBytes out.
Proof.
  intros Hfill Hparse. unfold Scrypt3.scrypt_hash. hash_by_primitive Hfill.
Qed.

Lemma scrypt2_hash_returned_by_primitive a w pw salt N r p v :
  crypto_scrypt_fills ->
  Scrypt2.parse_hash_args a = inr (pw, salt, N, r, p) ->
  outcome (Scrypt2.scrypt_hash a w) = Returned v ->
  params_wrong N r p = false
  /\ exists out, crypto_scrypt pw salt N r p 64 (env w) = (0, out) /\ v = PyBytes out.
Proof.
  intros Hfill Hparse. unfold Scrypt2.scrypt_hash. hash_by_primitive Hfill.
Qed.

(** *** The return code of a container primitive *)

Lemma error_code_out_of_table (rc : Z) :
  13 < rc -> nth_error g_error_codes (Z.to_nat rc) = None.
Proof. intros H. apply nth_error_None. cbn [length g_error_codes]. lia. Qed.

Ltac crypt_setup Hparse w :=
  rewrite Hparse; destruct w as [h lim jk er g tr e]; cbn [malloc_limit env] in *.

Lemma scrypt3_encrypt_fails a w input inputlen password passwordlen
    maxtime maxmem maxmemfrac rc out e' :
  Scrypt3.parse_crypt_args a g_maxtime_default_enc g_maxmem_default
                           g_maxmemfrac_default_enc
  = inr (input, inputlen, password, passwordlen, maxtime, maxmem, maxmemfrac) ->
  Z.of_nat (length input) + 129 <= INT_MAX ->
  Z.of_nat (length input) + 129 <= malloc_limit w ->
  scryptenc_buf input password maxmem maxmemfrac maxtime (env w) = (rc, out, e') ->
  (length out <= length input + 129)%nat ->
  (1 <= rc <= 13 ->
   outcome (Scrypt3.scrypt_encrypt a w) = Raised (Some (ScryptError, NoValue)))
  /\ (rc < 0 \/ 13 < rc ->
      outcome (Scrypt3.scrypt_encrypt a w) = Undefined OutOfBoundsRead).
Proof.
  intros Hparse Hint Hm Hprim Hout.
  destruct (scrypt3_parse_crypt_length _ _ _ _ _ _ _ _ _ _ _ Hparse) as [-> Hmax].
  assert (Hsz : to_size_t (Z.of_nat (length input) + 129)
                = Z.of_nat (length input) + 129)
    by (apply to_size_t_small; cbv [INT_MAX PY_SSIZE_T_MAX] in *; lia).
  unfold Scrypt3.scrypt_encrypt. crypt_setup Hparse w.
  split; intros Hrc.
  - destruct (nth_error g_error_codes (Z.to_nat rc)) as [msg|] eqn:Hmsg;
      [| apply nth_error_None in Hmsg; cbn [length g_error_codes] in Hmsg; lia].
    exec_with_hyps; rewrite ?Hsz in *; try reflexivity; exfalso; bounds.
  - destruct Hrc as [Hrc|Hrc]; [|pose proof (error_code_out_of_table rc Hrc)];
      exec_with_hyps; rewrite ?Hsz in *; try reflexivity; exfalso; bounds.
Qed.

Lemma scrypt2_encrypt_fails a w input password maxtime maxmem maxmemfrac rc out e' :
  Scrypt2.parse_crypt_args a g_maxtime_default_enc g_maxmem_default
                           g_maxmemfrac_default_enc
  = inr (input, password, maxtime, maxmem, maxmemfrac) ->
  Z.of_nat (length input) + 129 <= INT_MAX ->
  Z.of_nat (length input) + 129 <= malloc_limit w ->
  scryptenc_buf input password maxmem maxmemfrac maxtime (env w) = (rc, out, e') ->
  (length out <= length input + 129)%nat ->
  (1 <= rc <= 13 ->
   outcome (Scrypt2.scrypt_encrypt a w) = Raised (Some (ScryptError, NoValue)))
  /\ (rc < 0 \/ 13 < rc ->
      outcome (Scrypt2.scrypt_encrypt a w) = Undefined OutOfBoundsRead).
Proof.
  intros Hparse Hint Hm Hprim Hout.
  assert (Hsz : to_size_t (Z.of_nat (length input) + 129)
                = Z.of_nat (length input) + 129)
    by (apply to_size_t_small; cbv [INT_MAX PY_SSIZE_T_MAX] in *; lia).
  unfold Scrypt2.scrypt_encrypt. rewrite Hparse. unfold Scrypt2.PyString_Size.
  rewrite !as_int_small by lia.
  destruct w as [h lim jk er g tr e]; cbn [malloc_limit env] in *.
  split; intros Hrc.
  - destruct (nth_error g_error_codes (Z.to_nat rc)) as [msg|] eqn:Hmsg;
      [| apply nth_error_None in Hmsg; cbn [length g_error_codes] in Hmsg; lia].
    exec_with_hyps; rewrite ?Hsz in *; try reflexivity; exfalso; bounds.
  - destruct Hrc as [Hrc|Hrc]; [|pose proof (error_code_out_of_table rc Hrc)];
      exec_with_hyps; rewrite ?Hsz in *; try reflexivity; exfalso; bounds.
Qed.

Lemma scrypt3_decrypt_bad_code a w input inputlen password passwordlen
    maxtime maxmem maxmemfrac rc out outlen e' :
  Scrypt3.parse_crypt_args a g_maxtime_default g_maxmem_default g_maxmemfrac_default
  = inr (input, inputlen, password, passwordlen, maxtime, maxmem, maxmemfrac) ->
  Z.of_nat (length input) <= malloc_limit w ->
  scryptdec_buf input password maxmem maxmemfrac maxtime (env w)
  = (rc, out, outlen, e') ->
  (length out <= length input)%nat ->
  rc < 0 \/ 13 < rc ->
  outcome (Scrypt3.scrypt_decrypt a w) = Undefined OutOfBoundsRead.
Proof.
  intros Hparse Hm Hprim Hout Hrc.
  destruct (scrypt3_parse_crypt_length _ _ _ _ _ _ _ _ _ _ _ Hparse) as [-> Hmax].
  unfold Scrypt3.scrypt_decrypt. rewrite Hparse.
  rewrite to_size_t_small by (cbv [INT_MAX PY_SSIZE_T_MAX] in *; lia).
  destruct w as [h lim jk er g tr e]. cbn [malloc_limit env] in *.
  destruct Hrc as [Hrc|Hrc]; [|pose proof (error_code_out_of_table rc Hrc)];
    exec_with_hyps; try reflexivity; exfalso; bounds.
Qed.

Lemma scrypt2_decrypt_bad_code a w input password maxtime maxmem maxmemfrac
    rc out outlen e' :
  Scrypt2.parse_crypt_args a g_maxtime_default g_maxmem_default g_maxmemfrac_default
  = inr (input, password, maxtime, maxmem, maxmemfrac) ->
  Z.of_nat (length input) <= malloc_limit w ->
  Z.of_nat (length input) <= PY_SSIZE_T_MAX ->
  scryptdec_buf input password maxmem maxmemfrac maxtime (env w)
  = (rc, out, outlen, e') ->
  (length out <= length input)%nat ->
  rc < 0 \/ 13 < rc ->
  outcome (Scrypt2.scrypt_decrypt a w) = Undefined OutOfBoundsRead.
Proof.
  intros Hparse Hm Hmax Hprim Hout Hrc.
  unfold Scrypt2.scrypt_decrypt. rewrite Hparse. unfold Scrypt2.PyString_Size.
  rewrite !to_size_t_small by lia.
  destruct w as [h lim jk er g tr e]. cbn [malloc_limit env] in *.
  destruct Hrc as [Hrc|Hrc]; [|pose proof (error_code_out_of_table rc Hrc)];
    exec_with_hyps; try reflexivity; exfalso; bounds.
Qed.

(** *** Sizes *)

Lemma scrypt3_encrypt_overflow a w input inputlen password passwordlen
    maxtime maxmem maxmemfrac :
  Scrypt3.parse_crypt_args a g_maxtime_default_enc g_maxmem_default
                           g_maxmemfrac_default_enc
  = inr (input, inputlen, password, passwordlen, maxtime, maxmem, maxmemfrac) ->
  outcome (Scrypt3.scrypt_encrypt a w) = Undefined SignedOverflow
  <-> INT_MAX - 129 < Z.of_nat (length input).
Proof.
  intros Hparse.
  destruct (scrypt3_parse_crypt_length _ _ _ _ _ _ _ _ _ _ _ Hparse) as [-> Hmax].
  unfold Scrypt3.scrypt_encrypt. rewrite Hparse.
  exec; (split; intros H);
    first [ reflexivity | discriminate H | bounds | exfalso; bounds ].
Qed.

(** *** An allocation that fails *)

Lemma scrypt3_hash_null a w pw pl salt sl N r p rc out :
  Scrypt3.parse_hash_args a = inr (pw, pl, salt, sl, N, r, p) ->
  params_wrong N r p = false ->
  malloc_limit w < 64 ->
  crypto_scrypt pw salt N r p 64 (env w) = (rc, out) ->
  out <> [] ->
  outcome (Scrypt3.scrypt_hash a w) = Undefined NullDereference.
Proof.
  intros Hparse Hok Hm Hprim Hne. unfold Scrypt3.scrypt_hash.
  destruct w as [h lim jk er g tr e]. cbn [malloc_limit env] in Hm, Hprim.
  exec_with_hyps; try reflexivity; exfalso; bounds.
Qed.

Lemma scrypt2_hash_null a w pw salt N r p rc out :
  Scrypt2.parse_hash_args a = inr (pw, salt, N, r, p) ->
  params_wrong N r p = false ->
  malloc_limit w < 64 ->
  crypto_scrypt pw salt N r p 64 (env w) = (rc, out) ->
  out <> [] ->
  outcome (Scrypt2.scrypt_hash a w) = Undefined NullDereference.
Proof.
  intros Hparse Hok Hm Hprim Hne. unfold Scrypt2.scrypt_hash.
  destruct w as [h lim jk er g tr e]. cbn [malloc_limit env] in Hm, Hprim.
  exec_with_hyps; try reflexivity; exfalso; bounds.
Qed.

Lemma scrypt3_encrypt_null a w input inputlen password passwordlen
    maxtime maxmem maxmemfrac rc out e' :
  Scrypt3.parse_crypt_args a g_maxtime_default_enc g_maxmem_default
                           g_maxmemfrac_default_enc
  = inr (input, inputlen, password, passwordlen, maxtime, maxmem, maxmemfrac) ->
  Z.of_nat (length input) + 129 <= INT_MAX ->
  malloc_limit w < Z.of_nat (length input) + 129 ->
  scryptenc_buf input password maxmem maxmemfrac maxtime (env w) = (rc, out, e') ->
  out <> [] ->
  outcome (Scrypt3.scrypt_encrypt a w) = Undefined NullDereference.
Proof.
  intros Hparse Hint Hm Hprim Hne.
  destruct (scrypt3_parse_crypt_length _ _ _ _ _ _ _ _ _ _ _ Hparse) as [-> Hmax].
  assert (Hsz : to_size_t (Z.of_nat (length input) + 129)
                = Z.of_nat (length input) + 129)
    by (apply to_size_t_small; cbv [INT_MAX PY_SSIZE_T_MAX] in *; lia).
  unfold Scrypt3.scrypt_encrypt. crypt_setup Hparse w.
  exec_with_hyps; rewrite ?Hsz in *; try reflexivity; exfalso; bounds.
Qed.

Lemma scrypt3_decrypt_null a w input inputlen password passwordlen
    maxtime maxmem maxmemfrac rc out outlen e' :
  Scrypt3.parse_crypt_args a g_maxtime_default g_maxmem_default g_maxmemfrac_default
  = inr (input, inputlen, password, passwordlen, maxtime, maxmem, maxmemfrac) ->
  malloc_limit w < Z.of_nat (length input) ->
  scryptdec_buf input password maxmem maxmemfrac maxtime (env w)
  = (rc, out, outlen, e') ->
  out <> [] ->
  outcome (Scrypt3.scrypt_decrypt a w) = Undefined NullDereference.
Proof.
  intros Hparse Hm Hprim Hne.
  destruct (scrypt3_parse_crypt_length _ _ _ _ _ _ _ _ _ _ _ Hparse) as [-> Hmax].
  unfold Scrypt3.scrypt_decrypt. rewrite Hparse.
  rewrite to_size_t_small by (cbv [INT_MAX PY_SSIZE_T_MAX] in *; lia).
  destruct w as [h lim jk er g tr e]. cbn [malloc_limit env] in *.
  exec_with_hyps; try reflexivity; exfalso; bounds.
Qed.

Lemma scrypt2_encrypt_null a w input password maxtime maxmem maxmemfrac rc out e' :
  Scrypt2.parse_crypt_args a g_maxtime_default_enc g_maxmem_default
                           g_maxmemfrac_default_enc
  = inr (input, password, maxtime, maxmem, maxmemfrac) ->
  Z.of_nat (length input) + 129 <= INT_MAX ->
  malloc_limit w < Z.of_nat (length input) + 129 ->
  scryptenc_buf input password maxmem maxmemfrac maxtime (env w) = (rc, out, e') ->
  out <> [] ->
  outcome (Scrypt2.scrypt_encrypt a w) = Undefined NullDereference.
Proof.
  intros Hparse Hint Hm Hprim Hne.
  assert (Hsz : to_size_t (Z.of_nat (length input) + 129)
                = Z.of_nat (length input) + 129)
    by (apply to_size_t_small; cbv [INT_MAX PY_SSIZE_T_MAX] in *; lia).
  unfold Scrypt2.scrypt_encrypt. rewrite Hparse. unfold Scrypt2.PyString_Size.
  rewrite !as_int_small by lia.
  destruct w as [h lim jk er g tr e]; cbn [malloc_limit env] in *.
  exec_with_hyps; rewrite ?Hsz in *; try reflexivity; exfalso; bounds.
Qed.

Lemma scrypt2_decrypt_null a w input password maxtime maxmem maxmemfrac
    rc out outlen e' :
  Scrypt2.parse_crypt_args a g_maxtime_default g_maxmem_default g_maxmemfrac_default
  = inr (input, password, maxtime, maxmem, maxmemfrac) ->
  malloc_limit w < Z.of_nat (length input) ->
  Z.of_nat (length input) <= PY_SSIZE_T_MAX ->
  scryptdec_buf input password maxmem maxmemfrac maxtime (env w)
  = (rc, out, outlen, e') ->
  out <> [] ->
  outcome (Scrypt2.scrypt_decrypt a w) = Undefined NullDereference.
Proof.
  intros Hparse Hm Hmax Hprim Hne.
  unfold Scrypt2.scrypt_decrypt. rewrite Hparse. unfold Scrypt2.PyString_Size.
  rewrite !to_size_t_small by lia.
  destruct w as [h lim jk er g tr e]. cbn [malloc_limit env] in *.
  exec_with_hyps; try reflexivity; exfalso; bounds.
Qed.

Lemma scrypt2_encrypt_overflow a w input password maxtime maxmem maxmemfrac :
  Scrypt2.parse_crypt_args a g_maxtime_default_enc g_maxmem_default
                           g_maxmemfrac_default_enc
  = inr (input, password, maxtime, maxmem, maxmemfrac) ->
  Z.of_nat (length input) <= PY_SSIZE_T_MAX ->
  outcome (Scrypt2.scrypt_encrypt a w) = Undefined SignedOverflow
  <-> INT_MAX - 129 < Z.of_nat (length input).
Proof.
  intros Hparse Hmax.
  unfold Scrypt2.scrypt_encrypt. rewrite Hparse. unfold Scrypt2.PyString_Size.
  rewrite !as_int_small by (cbv [INT_MAX PY_SSIZE_T_MAX] in *; lia).
  exec; (split; intros H);
    first [ reflexivity | discriminate H | bounds | exfalso; bounds ].
Qed.

(** *** A reported length that is negative as an [int] *)

Ltac nul_bounds :=
  repeat match goal with
  | H : first_nul ?l = Some ?m |- _ =>
    lazymatch goal with
    | _ : (m < length l)%nat |- _ => fail
    | _ => pose proof (first_nul_lt _ _ H)
    end
  end.

Ltac same_strlen :=
  match goal with
  | Hd : first_nul ?x = _, Ho : first_nul ?y = _ |- _ =>
    change y with x in Ho; rewrite Hd in Ho;
    first [ discriminate Ho | injection Ho as <- ]
  end.

Ltac strlen_leaf :=
  rewrite ?Nat2Z.id in *; try same_strlen; try same_decoding;
  first [ reflexivity
        | exfalso; nul_bounds; cbv [buffer_after junk] in *; bounds ].

Lemma scrypt2_decrypt_strlen a w input password maxtime maxmem maxmemfrac
    out outlen e' :
  Scrypt2.parse_crypt_args a g_maxtime_default g_maxmem_default g_maxmemfrac_default
  = inr (input, password, maxtime, maxmem, maxmemfrac) ->
  Z.of_nat (length input) <= malloc_limit w ->
  Z.of_nat (length input) <= PY_SSIZE_T_MAX ->
  scryptdec_buf input password maxmem maxmemfrac maxtime (env w)
  = (0, out, outlen, e') ->
  (length out <= length input)%nat ->
  as_int outlen < 0 ->
  outcome (Scrypt2.scrypt_decrypt a w)
  = match first_nul (buffer_after w (length input) out) with
    | Some m => Returned (PyBytes (take m (buffer_after w (length input) out)))
    | None => Undefined OutOfBoundsRead
    end.
Proof.
  intros Hparse Hm Hmax Hprim Hout Hneg.
  unfold Scrypt2.scrypt_decrypt. rewrite Hparse. unfold Scrypt2.PyString_Size.
  rewrite !to_size_t_small by lia.
  destruct w as [h lim jk er g tr e]. cbn [malloc_limit env] in *.
  destruct (first_nul (buffer_after _ _ _)) as [m|] eqn:Hnul;
    exec_with_hyps; strlen_leaf.
Qed.

Lemma scrypt3_decrypt_strlen a w input inputlen password passwordlen
    maxtime maxmem maxmemfrac out outlen e' :
  Scrypt3.parse_crypt_args a g_maxtime_default g_maxmem_default g_maxmemfrac_default
  = inr (input, inputlen, password, passwordlen, maxtime, maxmem, maxmemfrac) ->
  Z.of_nat (length input) <= malloc_limit w ->
  scryptdec_buf input password maxmem maxmemfrac maxtime (env w)
  = (0, out, outlen, e') ->
  (length out <= length input)%nat ->
  as_int outlen < 0 ->
  outcome (Scrypt3.scrypt_decrypt a w)
  = match first_nul (buffer_after w (length input) out) with
    | Some m =>
      match utf8_decode (take m (buffer_after w (length input) out)) with
      | Some s => Returned (PyUnicode s)
      | None => Raised (Some (UnicodeDecodeError, InterpreterMessage))
      end
    | None => Undefined OutOfBoundsRead
    end.
Proof.
  intros Hparse Hm Hprim Hout Hneg.
  destruct (scrypt3_parse_crypt_length _ _ _ _ _ _ _ _ _ _ _ Hparse) as [-> Hmax].
  unfold Scrypt3.scrypt_decrypt. rewrite Hparse.
  rewrite to_size_t_small by (cbv [INT_MAX PY_SSIZE_T_MAX] in *; lia).
  destruct w as [h lim jk er g tr e]. cbn [malloc_limit env] in *.
  destruct (first_nul (buffer_after _ _ _)) as [m|] eqn:Hnul;
    [destruct (utf8_decode (take m (buffer_after _ _ _))) as [s|] eqn:Hdec|];
    exec_with_hyps; strlen_leaf.
Qed.

(** *** What the parsed arguments are *)

Lemma scrypt2_parse_crypt_input a t0 m0 f0 input password maxtime maxmem maxmemfrac :
  Scrypt2.parse_crypt_args a t0 m0 f0
  = inr (input, password, maxtime, maxmem, maxmemfrac) ->
  a_input a = PyBytes input /\ a_password a = PyBytes password.
Proof.
  unfold Scrypt2.parse_crypt_args, Scrypt2.parse_S. intros H.
  destruct (a_input a); try discriminate H.
  destruct (a_password a); try discriminate H.
  destruct (match a_maxmem a with Some z => parse_n z | None => inr m0 end);
    [discriminate H|].
  injection H as <- <- <- <- <-. split; reflexivity.
Qed.

Lemma parse_s_hash_argument o b n :
  Scrypt3.parse_s_hash o = inr (b, n) ->
  o = PyBytes b \/ exists s, o = PyUnicode s /\ utf8_encode s = Some b.
Proof.
  intros H. destruct o as [b'|s| | |]; try discriminate H.
  - left. unfold Scrypt3.parse_s_hash in H.
    destruct (INT_MAX <? _) in H; [discriminate H|]. now injection H as <- <-.
  - right. exists s. split; [reflexivity|]. eapply parse_s_hash_text, H.
Qed.

Lemma scrypt3_parse_crypt_argument a t0 m0 f0 input inputlen password passwordlen
    maxtime maxmem maxmemfrac :
  Scrypt3.parse_crypt_args a t0 m0 f0
  = inr (input, inputlen, password, passwordlen, maxtime, maxmem, maxmemfrac) ->
  a_input a = PyBytes input
  \/ exists s, a_input a = PyUnicode s /\ utf8_encode s = Some input.
Proof.
  intros H. eapply parse_s_hash_argument, scrypt3_parse_crypt_input, H.
Qed.

(** A call whose arguments do not parse returns no value. *)
Lemma scrypt2_encrypt_returned_parsed a w v :
  outcome (Scrypt2.scrypt_encrypt a w) = Returned v ->
  exists input password maxtime maxmem maxmemfrac,
    Scrypt2.parse_crypt_args a g_maxtime_default_enc g_maxmem_default
                             g_maxmemfrac_default_enc
    = inr (input, password, maxtime, maxmem, maxmemfrac).
Proof.
  unfold Scrypt2.scrypt_encrypt.
  destruct (Scrypt2.parse_crypt_args a _ _ _) as [e|[[[[i k] t] m] f]].
  - exec_unfold. discriminate.
  - intros _. now exists i, k, t, m, f.
Qed.

Lemma scrypt3_encrypt_returned_parsed a w v :
  outcome (Scrypt3.scrypt_encrypt a w) = Returned v ->
  exists input inputlen password passwordlen maxtime maxmem maxmemfrac,
    Scrypt3.parse_crypt_args a g_maxtime_default_enc g_maxmem_default
                             g_maxmemfrac_default_enc
    = inr (input, inputlen, password, passwordlen, maxtime, maxmem, maxmemfrac).
Proof.
  unfold Scrypt3.scrypt_encrypt.
  destruct (Scrypt3.parse_crypt_args a _ _ _) as [e|[[[[[[i il] k] kl] t] m] f]].
  - exec_unfold. discriminate.
  - intros _. now exists i, il, k, kl, t, m, f.
Qed.

End Proofs.

(** *** The small library keeps the contracts *)

Lemma toy_crypto_scrypt_fills : crypto_scrypt_fills (L := Toy.lib).
Proof.
  intros pw salt N r p n e. cbn [crypto_scrypt Toy.lib]. unfold Toy.kdf.
  destruct (2^30 <=? r * p); cbn [fst snd]; [discriminate|].
  intros _. now rewrite length_map, length_seq.
Qed.

Lemma toy_crypto_scrypt_deterministic : crypto_scrypt_deterministic (L := Toy.lib).
Proof. intros pw salt N r p n e1 e2. reflexivity. Qed.

Lemma toy_scryptenc_buf_fills : scryptenc_buf_fills (L := Toy.lib).
Proof.
  intros inbuf pw maxmem maxmemfrac maxtime e. cbn [scryptenc_buf Toy.lib].
  unfold Toy.enc. destruct (length e <? 32)%nat eqn:He; cbn [fst snd]; [discriminate|].
  intros _. apply Nat.ltb_ge in He.
  unfold Toy.header, Toy.tag.
  rewrite !length_app, !length_take, !length_app, !repeat_length.
  change (length Toy.magic) with 6%nat. cbn [length]. lia.
Qed.


(** * The properties of the specification, claim by claim *)




(** C2 (cost bound).  The test multiplies [r] and [p] as 32-bit unsigned
    integers: it accepts exactly the powers of two above 1 for [N] together
    with the [r], [p] whose product, reduced modulo [2^32], is below [2^30].
    For N = 16, r = p = 2^20 the exact product 2^40 is at least 2^30, yet the
    test accepts the parameters, [crypto_scrypt] is called with them, and the
    error raised is the one of a failed derivation, in both bindings. *)
Theorem hash_guard_wraps_product :
  (forall N r p, 0 <= N < 2^64 ->
     (params_wrong N r p = false
      <-> (r * p) mod 2^32 < 2^30 /\ exists k, 0 < k /\ N = 2^k))
  /\ 2^30 <= 2^20 * 2^20
  /\ params_wrong 16 (2^20) (2^20) = false
  /\ nth_error (new_events Toy.quiet
                  (Scrypt3.scrypt_hash Toy.big_rp_args Toy.quiet)) 3
     = Some (EvCryptoScrypt 16 (2^20) (2^20))
  /\ outcome (Scrypt3.scrypt_hash Toy.big_rp_args Toy.quiet)
     = Raised (Some (ScryptError, Message hash_failed_message))
  /\ nth_error (new_events Toy.quiet
                  (Scrypt2.scrypt_hash Toy.big_rp_args Toy.quiet)) 7
     = Some (EvCryptoScrypt 16 (2^20) (2^20))
  /\ outcome (Scrypt2.scrypt_hash Toy.big_rp_args Toy.quiet)
     = Raised (Some (ScryptError, Message hash_failed_message)).
Proof.
  split; [intros N r p HN; now apply params_wrong_spec|].
  split; [lia|]. repeat split; vm_compute; reflexivity.
Qed.

(** C3 (errors carry their message).  [scrypt_encrypt] loses it: whatever
    the primitive library does, neither binding's [encrypt] ever raises the
    module's error with a message.  With no entropy to read the primitive
    returns code 4, whose message is "could not read salt from /dev/urandom",
    and both bindings raise the module's error with no value at all, where
    [scrypt_decrypt] raises it with the message of its code. *)
Theorem encrypt_error_loses_message :
  (forall (L : PrimLib) (a : CryptArgs) (w : World) (e : option PyErr) (m : string),
      outcome (Scrypt3.scrypt_encrypt a w) = Raised e
      \/ outcome (Scrypt2.scrypt_encrypt a w) = Raised e ->
      e <> Some (ScryptError, Message m))
  /\ nth_error g_error_codes 4 = Some "could not read salt from /dev/urandom"%string
  /\ fst (fst (scryptenc_buf (list_byte_of_string "hi") (list_byte_of_string "pw")
                 g_maxmem_default g_maxmemfrac_default_enc g_maxtime_default_enc
                 ([] : @Env Toy.lib))) = 4
  /\ outcome (Scrypt3.scrypt_encrypt (Toy.crypt_args Toy.hi Toy.pw) Toy.quiet)
     = Raised (Some (ScryptError, NoValue))
  /\ outcome (Scrypt2.scrypt_encrypt (Toy.crypt_args Toy.hi Toy.pw) Toy.quiet)
     = Raised (Some (ScryptError, NoValue))
  /\ outcome (Scrypt3.scrypt_decrypt (Toy.crypt_args Toy.hi Toy.pw) Toy.quiet)
     = Raised (Some (ScryptError,
                     Message "data is not a valid scrypt-encrypted block"))
  /\ outcome (Scrypt2.scrypt_decrypt (Toy.crypt_args Toy.hi Toy.pw) Toy.quiet)
     = Raised (Some (ScryptError,
                     Message "data is not a valid scrypt-encrypted block")).
Proof.
  split.
  - intros L a w e m [H|H].
    + eapply scrypt3_encrypt_never_message, H.
    + eapply scrypt2_encrypt_never_message, H.
  - repeat split; vm_compute; reflexivity.
Qed.

(** C4 (defaults of [hash]).  With a password and a salt only, the Python 2
    binding uses N = 1024, r = 1, p = 1 (and calls [crypto_scrypt] with
    them), against its own documentation string; the Python 3 binding uses
    N = 16384, r = 8, p = 1. *)
Theorem hash_defaults_differ (pw salt : bytes) :
  Scrypt2.parse_hash_args (Toy.hash_args (PyBytes pw) (PyBytes salt) None None None)
  = inr (pw, salt, 1024, 1, 1)
  /\ nth_error (new_events Toy.quiet
                  (Scrypt2.scrypt_hash Toy.default_args Toy.quiet)) 7
     = Some (EvCryptoScrypt 1024 1 1)
  /\ hash_doc
     = "hash(password, salt, N=2**14, r=8, p=1): str; compute a 64-byte scrypt hash"%string
  /\ (Scrypt3.N_default, Scrypt3.r_default, Scrypt3.p_default) = (16384, 8, 1)
  /\ nth_error (new_events Toy.quiet
                  (Scrypt3.scrypt_hash Toy.default_args Toy.quiet)) 3
     = Some (EvCryptoScrypt 16384 8 1).
Proof.
  split; [reflexivity|]. repeat split; vm_compute; reflexivity.
Qed.

(** C5, as stated, fails: the buffer is allocated first.  For N = 3 the call
    allocates its 64 bytes, then tests the parameters, then releases the
    block: the test does not come before the allocation. *)
Lemma hash_allocates_before_guard :
  new_events Toy.quiet (Scrypt3.scrypt_hash Toy.odd_N_args Toy.quiet)
  = [EvMalloc 64 (Some 1%positive); EvSaveThread; EvGuard (-1); EvRestoreThread;
     EvFree (Some 1%positive)]
  /\ before is_guard is_malloc
       (new_events Toy.quiet
          (Scrypt3.scrypt_hash Toy.odd_N_args Toy.quiet)) = false.
Proof. split; vm_compute; reflexivity. Qed.

(** C5, amended.  In every call of [hash] whose arguments parse, in both
    bindings, the test on the cost parameters runs after the 64-byte buffer is
    allocated and before any call of a primitive; when it rejects them the
    call raises the module's error about the parameters, [crypto_scrypt] is
    not called, and the buffer is released. *)
Theorem hash_guard_after_malloc_before_primitive {L : PrimLib} (a : HashArgs) (w : World) :
  (forall pw pl salt sl N r p,
      Scrypt3.parse_hash_args a = inr (pw, pl, salt, sl, N, r, p) ->
      guard_in_place w (Scrypt3.scrypt_hash a w) N r p)
  /\ (forall pw salt N r p,
      Scrypt2.parse_hash_args a = inr (pw, salt, N, r, p) ->
      guard_in_place w (Scrypt2.scrypt_hash a w) N r p).
Proof.
  split; intros.
  - eapply scrypt3_hash_guard_order; eassumption.
  - eapply scrypt2_hash_guard_order; eassumption.
Qed.

(** N = 3 is rejected in both bindings, each with its own default [r], [p]. *)
Lemma hash_guard_after_malloc_before_primitive_witness :
  params_wrong 3 8 1 = true
  /\ guard_in_place Toy.quiet
       (Scrypt3.scrypt_hash Toy.odd_N_args Toy.quiet) 3 8 1
  /\ params_wrong 3 1 1 = true
  /\ guard_in_place Toy.quiet
       (Scrypt2.scrypt_hash Toy.odd_N_args Toy.quiet) 3 1 1.
Proof.
  split; [reflexivity|]. split.
  - apply (proj1 (hash_guard_after_malloc_before_primitive Toy.odd_N_args Toy.quiet)
             (list_byte_of_string "pw") 2 (list_byte_of_string "salt") 4 3 8 1).
    reflexivity.
  - split; [reflexivity|].
    apply (proj2 (hash_guard_after_malloc_before_primitive Toy.odd_N_args Toy.quiet)
             (list_byte_of_string "pw") (list_byte_of_string "salt") 3 1 1).
    reflexivity.
Defined.

(** C6 (fixed output length).  With a [crypto_scrypt] that fills its buffer
    when it reports success: whatever [hash] returns, in either binding, is a
    byte string of exactly 64 bytes; and when the arguments parse, the test
    accepts the cost parameters, the 64-byte buffer is served and the
    primitive reports success, [hash] does return: the 64 bytes the primitive
    wrote. *)
Theorem hash_output_is_64_bytes {L : PrimLib} (a : HashArgs) (w : World) :
  crypto_scrypt_fills ->
  (forall v,
      outcome (Scrypt3.scrypt_hash a w) = Returned v
      \/ outcome (Scrypt2.scrypt_hash a w) = Returned v ->
      exists bs, v = PyBytes bs /\ length bs = 64%nat)
  /\ (forall pw pl salt sl N r p out,
      Scrypt3.parse_hash_args a = inr (pw, pl, salt, sl, N, r, p) ->
      params_wrong N r p = false ->
      64 <= malloc_limit w ->
      crypto_scrypt pw salt N r p 64 (env w) = (0, out) ->
      outcome (Scrypt3.scrypt_hash a w) = Returned (PyBytes out)
      /\ length out = 64%nat)
  /\ (forall pw salt N r p out,
      Scrypt2.parse_hash_args a = inr (pw, salt, N, r, p) ->
      params_wrong N r p = false ->
      64 <= malloc_limit w ->
      crypto_scrypt pw salt N r p 64 (env w) = (0, out) ->
      outcome (Scrypt2.scrypt_hash a w) = Returned (PyBytes out)
      /\ length out = 64%nat).
Proof.
  intros Hfill. split; [|split].
  - intros v [Hv|Hv].
    + eapply scrypt3_hash_returned; eassumption.
    + eapply scrypt2_hash_returned; eassumption.
  - intros pw pl salt sl N r p out Hparse Hok Hm Hprim.
    assert (Hlen : length out = 64%nat).
    { pose proof (Hfill pw salt N r p 64 (env w)) as Hf. rewrite Hprim in Hf.
      exact (Hf eq_refl). }
    split; [|exact Hlen]. eapply scrypt3_hash_succeeds; eassumption.
  - intros pw salt N r p out Hparse Hok Hm Hprim.
    assert (Hlen : length out = 64%nat).
    { pose proof (Hfill pw salt N r p 64 (env w)) as Hf. rewrite Hprim in Hf.
      exact (Hf eq_refl). }
    split; [|exact Hlen]. eapply scrypt2_hash_succeeds; eassumption.
Qed.

(** [hash] with the default cost parameters of the Python 3 binding. *)
Lemma hash_output_is_64_bytes_witness :
  (exists bs,
      Toy.value_of (Scrypt3.scrypt_hash Toy.default_args Toy.quiet) = PyBytes bs
      /\ length bs = 64%nat)
  /\ params_wrong 16384 8 1 = false
  /\ outcome (Scrypt3.scrypt_hash Toy.default_args Toy.quiet)
     = Returned (PyBytes (Toy.bytes_of
                            (Toy.value_of
                               (Scrypt3.scrypt_hash Toy.default_args Toy.quiet))))
  /\ length (Toy.bytes_of
               (Toy.value_of (Scrypt3.scrypt_hash Toy.default_args Toy.quiet)))
     = 64%nat.
Proof.
  split.
  - apply (proj1 (hash_output_is_64_bytes Toy.default_args Toy.quiet
                    toy_crypto_scrypt_fills)).
    left. vm_compute. reflexivity.
  - split; [reflexivity|].
    apply (proj1 (proj2 (hash_output_is_64_bytes Toy.default_args Toy.quiet
                           toy_crypto_scrypt_fills))
             (list_byte_of_string "pw") 2 (list_byte_of_string "salt") 4 16384 8 1).
    + reflexivity.
    + reflexivity.
    + apply Z.leb_le. vm_compute. reflexivity.
    + vm_compute. reflexivity.
Defined.

(** C7 (output of [encrypt]).  With a [scryptenc_buf] that writes 128 bytes
    more than its input when it reports success: whatever [encrypt] returns
    is the byte string the primitive wrote for the plaintext argument, of
    length [len(plaintext) + 128], so that nothing is returned unless the
    primitive reported success; the plaintext is the bytes of the argument
    (in the Python 3 binding a text argument counts as its UTF-8 encoding).
    And when the arguments parse, the buffer of [len(plaintext) + 129] bytes
    is served and the primitive reports success, [encrypt] does return, all
    the bytes the primitive wrote. *)
Theorem encrypt_output_length {L : PrimLib} (a : CryptArgs) (w : World) :
  scryptenc_buf_fills ->
  (forall v,
      outcome (Scrypt2.scrypt_encrypt a w) = Returned v ->
      exists p k maxtime maxmem maxmemfrac out e',
        a_input a = PyBytes p /\ a_password a = PyBytes k
        /\ scryptenc_buf p k maxmem maxmemfrac maxtime (env w) = (0, out, e')
        /\ v = PyBytes out /\ length out = (length p + 128)%nat)
  /\ (forall v,
      outcome (Scrypt3.scrypt_encrypt a w) = Returned v ->
      exists p k maxtime maxmem maxmemfrac out e',
        (a_input a = PyBytes p
         \/ exists s, a_input a = PyUnicode s /\ utf8_encode s = Some p)
        /\ scryptenc_buf p k maxmem maxmemfrac maxtime (env w) = (0, out, e')
        /\ v = PyBytes out /\ length out = (length p + 128)%nat)
  /\ (forall p k maxtime maxmem maxmemfrac out e',
      Scrypt2.parse_crypt_args a g_maxtime_default_enc g_maxmem_default
                               g_maxmemfrac_default_enc
      = inr (p, k, maxtime, maxmem, maxmemfrac) ->
      Z.of_nat (length p) + 129 <= INT_MAX ->
      Z.of_nat (length p) + 129 <= malloc_limit w ->
      scryptenc_buf p k maxmem maxmemfrac maxtime (env w) = (0, out, e') ->
      a_input a = PyBytes p
      /\ outcome (Scrypt2.scrypt_encrypt a w) = Returned (PyBytes out)
      /\ length out = (length p + 128)%nat)
  /\ (forall p pl k kl maxtime maxmem maxmemfrac out e',
      Scrypt3.parse_crypt_args a g_maxtime_default_enc g_maxmem_default
                               g_maxmemfrac_default_enc
      = inr (p, pl, k, kl, maxtime, maxmem, maxmemfrac) ->
      Z.of_nat (length p) + 129 <= INT_MAX ->
      Z.of_nat (length p) + 129 <= malloc_limit w ->
      scryptenc_buf p k maxmem maxmemfrac maxtime (env w) = (0, out, e') ->
      (a_input a = PyBytes p
       \/ exists s, a_input a = PyUnicode s /\ utf8_encode s = Some p)
      /\ outcome (Scrypt3.scrypt_encrypt a w) = Returned (PyBytes out)
      /\ length out = (length p + 128)%nat).
Proof.
  intros Hfill. split; [|split; [|split]].
  - intros v Hv.
    destruct (scrypt2_encrypt_returned_parsed _ _ _ Hv)
      as (p & k & maxtime & maxmem & maxmemfrac & Hparse).
    destruct (scrypt2_encrypt_returned _ _ _ _ _ _ _ _ Hfill Hparse Hv)
      as (out & e' & Hprim & Hval & Hlen).
    destruct (scrypt2_parse_crypt_input _ _ _ _ _ _ _ _ _ Hparse) as [Hp Hk].
    exists p, k, maxtime, maxmem, maxmemfrac, out, e'. auto.
  - intros v Hv.
    destruct (scrypt3_encrypt_returned_parsed _ _ _ Hv)
      as (p & pl & k & kl & maxtime & maxmem & maxmemfrac & Hparse).
    destruct (scrypt3_encrypt_returned _ _ _ _ _ _ _ _ _ _ Hfill Hparse Hv)
      as (out & e' & Hprim & Hval & Hlen).
    pose proof (scrypt3_parse_crypt_argument _ _ _ _ _ _ _ _ _ _ _ Hparse) as Hp.
    exists p, k, maxtime, maxmem, maxmemfrac, out, e'. auto.
  - intros p k maxtime maxmem maxmemfrac out e' Hparse Hint Hm Hprim.
    assert (Hlen : length out = (length p + 128)%nat).
    { pose proof (Hfill p k maxmem maxmemfrac maxtime (env w)) as Hf.
      rewrite Hprim in Hf. exact (Hf eq_refl). }
    split; [eapply scrypt2_parse_crypt_input, Hparse|].
    split; [|exact Hlen]. eapply scrypt2_encrypt_succeeds; eassumption.
  - intros p pl k kl maxtime maxmem maxmemfrac out e' Hparse Hint Hm Hprim.
    assert (Hlen : length out = (length p + 128)%nat).
    { pose proof (Hfill p k maxmem maxmemfrac maxtime (env w)) as Hf.
      rewrite Hprim in Hf. exact (Hf eq_refl). }
    split; [eapply scrypt3_parse_crypt_argument, Hparse|].
    split; [|exact Hlen]. eapply scrypt3_encrypt_succeeds; eassumption.
Qed.

(** The two bytes "hi" give a container of 130 bytes in the Python 2 binding;
    the text of 'h' and e with an acute accent, two code points and three
    bytes of UTF-8, gives one of 131 bytes in the Python 3 binding. *)
Lemma encrypt_output_length_witness :
  (a_input (Toy.crypt_args Toy.hi Toy.pw) = PyBytes (list_byte_of_string "hi")
   /\ outcome (Toy.encrypted2 Toy.hi Toy.pw)
      = Returned (PyBytes Toy.container)
   /\ length Toy.container = (2 + 128)%nat)
  /\ ((a_input (Toy.crypt_args Toy.text Toy.pw)
       = PyBytes [Byte.x68; Byte.xc3; Byte.xa9]
       \/ exists s, a_input (Toy.crypt_args Toy.text Toy.pw) = PyUnicode s
                    /\ utf8_encode s = Some [Byte.x68; Byte.xc3; Byte.xa9])
      /\ outcome (Toy.encrypted3 Toy.text Toy.pw)
         = Returned (PyBytes Toy.container_text)
      /\ length Toy.container_text = (3 + 128)%nat).
Proof.
  split.
  - apply (proj1 (proj2 (proj2 (encrypt_output_length
                                  (Toy.crypt_args Toy.hi Toy.pw)
                                  (Toy.world0 (L := Toy.lib) Toy.entropy)
                                  toy_scryptenc_buf_fills)))
             (list_byte_of_string "hi") (list_byte_of_string "pw")
             g_maxtime_default_enc g_maxmem_default g_maxmemfrac_default_enc
             Toy.container []).
    + reflexivity.
    + apply Z.leb_le. vm_compute. reflexivity.
    + apply Z.leb_le. vm_compute. reflexivity.
    + vm_compute. reflexivity.
  - apply (proj2 (proj2 (proj2 (encrypt_output_length
                                  (Toy.crypt_args Toy.text Toy.pw)
                                  (Toy.world0 (L := Toy.lib) Toy.entropy)
                                  toy_scryptenc_buf_fills)))
             [Byte.x68; Byte.xc3; Byte.xa9] 3 (list_byte_of_string "pw") 2
             g_maxtime_default_enc g_maxmem_default g_maxmemfrac_default_enc
             Toy.container_text []).
    + vm_compute. reflexivity.
    + apply Z.leb_le. vm_compute. reflexivity.
    + apply Z.leb_le. vm_compute. reflexivity.
    + vm_compute. reflexivity.
Defined.

(** C8, as stated, fails: nothing compares the reported length with the
    capacity.  A primitive that reports success and 5 bytes for a 3-byte
    input makes both bindings read 5 bytes from the 3-byte block: no error is
    raised, the read is out of bounds. *)
Lemma decrypt_reads_past_buffer :
  @scryptdec_buf Toy.lib_long (list_byte_of_string "xyz") (list_byte_of_string "pw")
                g_maxmem_default g_maxmemfrac_default g_maxtime_default []
  = (0, list_byte_of_string "abc", 5, [])
  /\ outcome (Scrypt3.scrypt_decrypt (Toy.crypt_args Toy.xyz Toy.pw) Toy.quiet_long)
     = Undefined OutOfBoundsRead
  /\ outcome (Scrypt2.scrypt_decrypt (Toy.crypt_args Toy.xyz Toy.pw) Toy.quiet_long)
     = Undefined OutOfBoundsRead.
Proof. repeat split; vm_compute; reflexivity. Qed.

(** C8, amended.  The reported length is never compared with the capacity.
    For a call of [decrypt] whose buffer of [len(ciphertext)] bytes was
    allocated, and a primitive that reports success and the length [usedLen]
    (a [size_t]), the result is settled by [usedLen] alone.  Up to the
    capacity, the result is built from the first [usedLen] bytes of the
    buffer and from nothing else: the Python 2 binding returns those bytes,
    the Python 3 binding their decoding as UTF-8.  Above the capacity and
    below [2^31], the binding reads past the end of the buffer, which is
    undefined, and raises nothing.  From [2^31] on, the length is negative as
    the [int] it is read back as, and the result is built from the bytes
    before the first zero byte of the buffer, or read past its end when it
    holds none.  The ciphertext is the bytes of the argument. *)
Theorem decrypt_uses_reported_length {L : PrimLib} (a : CryptArgs) (w : World)
    (input password : bytes) (maxtime : float) (maxmem : Z) (maxmemfrac : float)
    (out : bytes) (outlen : Z) (e' : Env) :
  Z.of_nat (length input) <= malloc_limit w ->
  scryptdec_buf input password maxmem maxmemfrac maxtime (env w)
  = (0, out, outlen, e') ->
  (length out <= length input)%nat ->
  0 <= outlen < 2^32 ->
  (Scrypt2.parse_crypt_args a g_maxtime_default g_maxmem_default g_maxmemfrac_default
   = inr (input, password, maxtime, maxmem, maxmemfrac) ->
   Z.of_nat (length input) <= PY_SSIZE_T_MAX ->
   a_input a = PyBytes input
   /\ (outlen <= Z.of_nat (length input) ->
       outcome (Scrypt2.scrypt_decrypt a w)
       = Returned (PyBytes (take (Z.to_nat outlen)
                                 (buffer_after w (length input) out))))
   /\ (Z.of_nat (length input) < outlen < 2^31 ->
       outcome (Scrypt2.scrypt_decrypt a w) = Undefined OutOfBoundsRead)
   /\ (2^31 <= outlen ->
       outcome (Scrypt2.scrypt_decrypt a w)
       = match first_nul (buffer_after w (length input) out) with
         | Some m => Returned (PyBytes (take m (buffer_after w (length input) out)))
         | None => Undefined OutOfBoundsRead
         end))
  /\ (forall inputlen passwordlen,
      Scrypt3.parse_crypt_args a g_maxtime_default g_maxmem_default g_maxmemfrac_default
      = inr (input, inputlen, password, passwordlen, maxtime, maxmem, maxmemfrac) ->
      (a_input a = PyBytes input
       \/ exists s, a_input a = PyUnicode s /\ utf8_encode s = Some input)
      /\ (outlen <= Z.of_nat (length input) ->
          outcome (Scrypt3.scrypt_decrypt a w)
          = match utf8_decode (take (Z.to_nat outlen)
                                    (buffer_after w (length input) out)) with
            | Some s => Returned (PyUnicode s)
            | None => Raised (Some (UnicodeDecodeError, InterpreterMessage))
            end)
      /\ (Z.of_nat (length input) < outlen < 2^31 ->
          outcome (Scrypt3.scrypt_decrypt a w) = Undefined OutOfBoundsRead)
      /\ (2^31 <= outlen ->
          outcome (Scrypt3.scrypt_decrypt a w)
          = match first_nul (buffer_after w (length input) out) with
            | Some m =>
              match utf8_decode (take m (buffer_after w (length input) out)) with
              | Some s => Returned (PyUnicode s)
              | None => Raised (Some (UnicodeDecodeError, InterpreterMessage))
              end
            | None => Undefined OutOfBoundsRead
            end)).
Proof.
  intros Hm Hprim Hout Hsz.
  destruct (as_int_size_t outlen Hsz) as [Hsmall Hbig].
  split.
  - intros Hparse Hmax.
    split; [eapply scrypt2_parse_crypt_input, Hparse|].
    split; [|split].
    + intros Hcap.
      rewrite <- (Hsmall ltac:(cbv [PY_SSIZE_T_MAX] in Hmax; lia)) at 1.
      eapply scrypt2_decrypt_succeeds; try eassumption.
      rewrite Hsmall by (cbv [PY_SSIZE_T_MAX] in Hmax; lia). lia.
    + intros Hlong. eapply scrypt2_decrypt_overlong; try eassumption.
      rewrite Hsmall by lia. lia.
    + intros Hneg. eapply scrypt2_decrypt_strlen; try eassumption. auto.
  - intros inputlen passwordlen Hparse.
    destruct (scrypt3_parse_crypt_length _ _ _ _ _ _ _ _ _ _ _ Hparse) as [_ Hmax].
    destruct (scrypt3_parse_crypt_length _ _ _ _ _ _ _ _ _ _ _ Hparse) as [Hil _].
    subst inputlen.
    split; [eapply scrypt3_parse_crypt_argument, Hparse|].
    split; [|split].
    + intros Hcap.
      assert (Hint : as_int outlen = outlen)
        by (apply Hsmall; cbv [INT_MAX] in Hmax; lia).
      rewrite <- Hint at 1.
      destruct (utf8_decode (take (Z.to_nat (as_int outlen))
                                  (buffer_after w (length input) out)))
        as [s|] eqn:Hdec.
      * eapply scrypt3_decrypt_text; try eassumption. lia.
      * eapply scrypt3_decrypt_not_text; try eassumption. lia.
    + intros Hlong. eapply scrypt3_decrypt_overlong; try eassumption.
      rewrite Hsmall by lia. lia.
    + intros Hneg. eapply scrypt3_decrypt_strlen; try eassumption. auto.
Qed.

(** The container of "hi" decrypts to its two payload bytes; a reported
    length of 5 for a 3-byte buffer is read as it is; a reported length of
    [2^32 - 1] for a buffer that holds 'a', a zero byte and 'b' gives "a". *)
Lemma decrypt_uses_reported_length_witness :
  outcome (Scrypt2.scrypt_decrypt (Toy.crypt_args (PyBytes Toy.container) Toy.pw)
                                  Toy.quiet)
  = Returned (PyBytes (list_byte_of_string "hi"))
  /\ outcome (Scrypt2.scrypt_decrypt (Toy.crypt_args Toy.xyz Toy.pw) Toy.quiet_long)
     = Undefined OutOfBoundsRead
  /\ outcome (Scrypt2.scrypt_decrypt (Toy.crypt_args Toy.xyz Toy.pw) Toy.quiet_neg)
     = Returned (PyBytes (list_byte_of_string "a"))
  /\ outcome (Scrypt3.scrypt_decrypt (Toy.crypt_args Toy.xyz Toy.pw) Toy.quiet_neg)
     = Returned (PyUnicode [97%N]).
Proof.
  split; [|split; [|split]].
  - apply (proj1 (proj2 (proj1 (decrypt_uses_reported_length
                    (Toy.crypt_args (PyBytes Toy.container) Toy.pw) Toy.quiet
                    Toy.container (list_byte_of_string "pw")
                    g_maxtime_default g_maxmem_default g_maxmemfrac_default
                    (list_byte_of_string "hi") 2 []
                    ltac:(apply Z.leb_le; vm_compute; reflexivity)
                    ltac:(vm_compute; reflexivity)
                    ltac:(apply Nat.leb_le; vm_compute; reflexivity)
                    ltac:(lia))
                  ltac:(vm_compute; reflexivity)
                  ltac:(apply Z.leb_le; vm_compute; reflexivity)))).
    apply Z.leb_le. vm_compute. reflexivity.
  - apply (proj1 (proj2 (proj2 (proj1 (decrypt_uses_reported_length
                    (L := Toy.lib_long)
                    (Toy.crypt_args Toy.xyz Toy.pw) Toy.quiet_long
                    (list_byte_of_string "xyz") (list_byte_of_string "pw")
                    g_maxtime_default g_maxmem_default g_maxmemfrac_default
                    (list_byte_of_string "abc") 5 []
                    ltac:(apply Z.leb_le; vm_compute; reflexivity)
                    ltac:(vm_compute; reflexivity)
                    ltac:(apply Nat.leb_le; vm_compute; reflexivity)
                    ltac:(lia))
                  ltac:(vm_compute; reflexivity)
                  ltac:(apply Z.leb_le; vm_compute; reflexivity))))).
    split; [apply Z.ltb_lt; vm_compute; reflexivity | lia].
  - apply (proj2 (proj2 (proj2 (proj1 (decrypt_uses_reported_length
                    (L := Toy.lib_neg)
                    (Toy.crypt_args Toy.xyz Toy.pw) Toy.quiet_neg
                    (list_byte_of_string "xyz") (list_byte_of_string "pw")
                    g_maxtime_default g_maxmem_default g_maxmemfrac_default
                    [Byte.x61; Byte.x00; Byte.x62] (2^32 - 1) []
                    ltac:(apply Z.leb_le; vm_compute; reflexivity)
                    ltac:(vm_compute; reflexivity)
                    ltac:(apply Nat.leb_le; vm_compute; reflexivity)
                    ltac:(lia))
                  ltac:(vm_compute; reflexivity)
                  ltac:(apply Z.leb_le; vm_compute; reflexivity))))).
    lia.
  - apply (proj2 (proj2 (proj2 (proj2 (decrypt_uses_reported_length
                    (L := Toy.lib_neg)
                    (Toy.crypt_args Toy.xyz Toy.pw) Toy.quiet_neg
                    (list_byte_of_string "xyz") (list_byte_of_string "pw")
                    g_maxtime_default g_maxmem_default g_maxmemfrac_default
                    [Byte.x61; Byte.x00; Byte.x62] (2^32 - 1) []
                    ltac:(apply Z.leb_le; vm_compute; reflexivity)
                    ltac:(vm_compute; reflexivity)
                    ltac:(apply Nat.leb_le; vm_compute; reflexivity)
                    ltac:(lia))
                  3 2 ltac:(vm_compute; reflexivity))))).
    lia.
Defined.

(** C9 (buffer lifecycle).  Every call of [encrypt], [decrypt] or [hash], in
    either binding, whatever the primitive library does and however the call
    ends (a value, the module's error, an error of the interpreter), leaves
    the heap as it found it and has released, exactly once, the block it
    allocated; and no call releases a block twice. *)
Theorem buffer_released_once {L : PrimLib} (a : CryptArgs) (h : HashArgs) (w : World) :
  released_once w (Scrypt3.scrypt_encrypt a w)
  /\ released_once w (Scrypt3.scrypt_decrypt a w)
  /\ released_once w (Scrypt3.scrypt_hash h w)
  /\ released_once w (Scrypt2.scrypt_encrypt a w)
  /\ released_once w (Scrypt2.scrypt_decrypt a w)
  /\ released_once w (Scrypt2.scrypt_hash h w).
Proof.
  repeat split.
  - apply scrypt3_encrypt_released_once.
  - apply scrypt3_decrypt_released_once.
  - apply scrypt3_hash_released_once.
  - apply scrypt2_encrypt_released_once.
  - apply scrypt2_decrypt_released_once.
  - apply scrypt2_hash_released_once.
Qed.

(** C10 (determinism of [hash]).  With a [crypto_scrypt] that reads nothing
    from the host and fills its buffer when it reports success, two calls of
    [hash] with the same arguments, in any two interpreter states that can
    serve the 64-byte buffer, have the same outcome (the same bytes, or the
    same error), in either binding; and a call of [hash] leaves the host
    environment as it was and calls neither container primitive, the one of
    which reads the entropy device. *)
Theorem hash_is_deterministic {L : PrimLib} (a : HashArgs) (w1 w2 : World) :
  crypto_scrypt_deterministic -> crypto_scrypt_fills ->
  64 <= malloc_limit w1 -> 64 <= malloc_limit w2 ->
  outcome (Scrypt3.scrypt_hash a w1) = outcome (Scrypt3.scrypt_hash a w2)
  /\ outcome (Scrypt2.scrypt_hash a w1) = outcome (Scrypt2.scrypt_hash a w2)
  /\ env (final_world (Scrypt3.scrypt_hash a w1)) = env w1
  /\ first_index is_container_call (new_events w1 (Scrypt3.scrypt_hash a w1)) = None
  /\ env (final_world (Scrypt2.scrypt_hash a w1)) = env w1
  /\ first_index is_container_call (new_events w1 (Scrypt2.scrypt_hash a w1)) = None.
Proof.
  intros Hdet Hfill H1 H2.
  split; [now apply scrypt3_hash_deterministic|].
  split; [now apply scrypt2_hash_deterministic|].
  split; [apply scrypt3_hash_host_untouched|].
  split; [apply scrypt3_hash_host_untouched|].
  split; apply scrypt2_hash_host_untouched.
Qed.

(** Two interpreter states that differ in heap, fresh memory, pending error,
    trace and host environment. *)
Lemma hash_is_deterministic_witness :
  outcome (Scrypt3.scrypt_hash Toy.default_args Toy.quiet)
  = outcome (Scrypt3.scrypt_hash Toy.default_args Toy.world1)
  /\ junk Toy.quiet <> junk Toy.world1
  /\ env Toy.quiet <> env Toy.world1.
Proof.
  split.
  - apply (hash_is_deterministic Toy.default_args Toy.quiet Toy.world1
             toy_crypto_scrypt_deterministic toy_crypto_scrypt_fills).
    + apply Z.leb_le. vm_compute. reflexivity.
    + apply Z.leb_le. vm_compute. reflexivity.
  - split.
    + intros H. apply (f_equal (fun f => f O)) in H. discriminate H.
    + discriminate.
Defined.

(** * Further properties of the bindings *)

(** X1 (errors of [decrypt]).  When the buffer is served and [scryptdec_buf]
    reports one of its codes 1 to 13 (a wrong password, a malformed container,
    a budget that is too small, ...), [decrypt] returns no value and raises
    the module's error with the message of that code, in both bindings. *)
Theorem decrypt_raises_code_message {L : PrimLib} (a : CryptArgs) (w : World)
    (rc : Z) (out : bytes) (outlen : Z) (e' : Env) :
  1 <= rc <= 13 ->
  (forall input inputlen password passwordlen maxtime maxmem maxmemfrac,
      Scrypt3.parse_crypt_args a g_maxtime_default g_maxmem_default g_maxmemfrac_default
      = inr (input, inputlen, password, passwordlen, maxtime, maxmem, maxmemfrac) ->
      Z.of_nat (length input) <= malloc_limit w ->
      scryptdec_buf input password maxmem maxmemfrac maxtime (env w)
      = (rc, out, outlen, e') ->
      (length out <= length input)%nat ->
      exists msg, nth_error g_error_codes (Z.to_nat rc) = Some msg
                  /\ outcome (Scrypt3.scrypt_decrypt a w)
                     = Raised (Some (ScryptError, Message msg)))
  /\ (forall input password maxtime maxmem maxmemfrac,
      Scrypt2.parse_crypt_args a g_maxtime_default g_maxmem_default g_maxmemfrac_default
      = inr (input, password, maxtime, maxmem, maxmemfrac) ->
      Z.of_nat (length input) <= malloc_limit w ->
      Z.of_nat (length input) <= PY_SSIZE_T_MAX ->
      scryptdec_buf input password maxmem maxmemfrac maxtime (env w)
      = (rc, out, outlen, e') ->
      (length out <= length input)%nat ->
      exists msg, nth_error g_error_codes (Z.to_nat rc) = Some msg
                  /\ outcome (Scrypt2.scrypt_decrypt a w)
                     = Raised (Some (ScryptError, Message msg))).
Proof.
  intros Hrc. split; intros.
  - eapply scrypt3_decrypt_error_message; eassumption.
  - eapply scrypt2_decrypt_error_message; eassumption.
Qed.

(** The container of "hi" under the password "pw", decrypted under "salt". *)
Lemma decrypt_raises_code_message_witness :
  exists msg,
    nth_error g_error_codes 11 = Some msg
    /\ outcome (Scrypt3.scrypt_decrypt
                  (Toy.crypt_args (PyBytes Toy.container) Toy.salt) Toy.quiet)
       = Raised (Some (ScryptError, Message msg)).
Proof.
  apply (proj1 (decrypt_raises_code_message
                  (Toy.crypt_args (PyBytes Toy.container) Toy.salt) Toy.quiet
                  11 [] 0 [] ltac:(lia))
           Toy.container 130 (list_byte_of_string "salt") 4
           g_maxtime_default g_maxmem_default g_maxmemfrac_default).
  - vm_compute. reflexivity.
  - apply Z.leb_le. vm_compute. reflexivity.
  - vm_compute. reflexivity.
  - apply Nat.leb_le. vm_compute. reflexivity.
Defined.

(** X2 (failure of the derivation).  When the guard accepts the parameters,
    the buffer is served and [crypto_scrypt] reports a code other than zero,
    [hash] returns no value and raises the module's error with the message
    "could not compute hash", in both bindings. *)
Theorem hash_failure_is_reported {L : PrimLib} (a : HashArgs) (w : World)
    (pw salt : bytes) (N r p rc : Z) (out : bytes) :
  params_wrong N r p = false ->
  64 <= malloc_limit w ->
  crypto_scrypt pw salt N r p 64 (env w) = (rc, out) ->
  rc <> 0 ->
  (length out <= 64)%nat ->
  (forall pl sl,
      Scrypt3.parse_hash_args a = inr (pw, pl, salt, sl, N, r, p) ->
      outcome (Scrypt3.scrypt_hash a w)
      = Raised (Some (ScryptError, Message hash_failed_message)))
  /\ (Scrypt2.parse_hash_args a = inr (pw, salt, N, r, p) ->
      outcome (Scrypt2.scrypt_hash a w)
      = Raised (Some (ScryptError, Message hash_failed_message))).
Proof.
  intros Hg Hm Hprim Hrc Hlen. split; intros.
  - eapply scrypt3_hash_fails; eassumption.
  - eapply scrypt2_hash_fails; eassumption.
Qed.

(** [r = p = 2^20]: the guard's 32-bit product is zero, the derivation itself
    refuses. *)
Lemma hash_failure_is_reported_witness :
  outcome (Scrypt3.scrypt_hash Toy.big_rp_args Toy.quiet)
  = Raised (Some (ScryptError, Message hash_failed_message)).
Proof.
  apply (proj1 (hash_failure_is_reported Toy.big_rp_args Toy.quiet
                  (list_byte_of_string "pw") (list_byte_of_string "salt")
                  16 (2^20) (2^20) (-1) []
                  ltac:(vm_compute; reflexivity)
                  ltac:(apply Z.leb_le; vm_compute; reflexivity)
                  ltac:(vm_compute; reflexivity)
                  ltac:(lia)
                  ltac:(apply Nat.leb_le; vm_compute; reflexivity))
           2 4).
  vm_compute. reflexivity.
Defined.

(** X3 ([hash] fails closed).  Under the contract of [crypto_scrypt] (it
    writes exactly the bytes asked for when it reports zero), a value returned
    by [hash] is never anything but the output of a derivation that reported
    zero, run on parameters the guard accepted: no rejected parameter and no
    failed derivation yields a value, in either binding. *)
Theorem hash_value_comes_from_derivation {L : PrimLib} (a : HashArgs) (w : World)
    (pw salt : bytes) (N r p : Z) (v : PyObject) :
  crypto_scrypt_fills ->
  (forall pl sl,
      Scrypt3.parse_hash_args a = inr (pw, pl, salt, sl, N, r, p) ->
      outcome (Scrypt3.scrypt_hash a w) = Returned v ->
      params_wrong N r p = false
      /\ exists out, crypto_scrypt pw salt N r p 64 (env w) = (0, out)
                     /\ v = PyBytes out)
  /\ (Scrypt2.parse_hash_args a = inr (pw, salt, N, r, p) ->
      outcome (Scrypt2.scrypt_hash a w) = Returned v ->
      params_wrong N r p = false
      /\ exists out, crypto_scrypt pw salt N r p 64 (env w) = (0, out)
                     /\ v = PyBytes out).
Proof.
  intros Hfill. split; intros.
  - eapply scrypt3_hash_returned_by_primitive; eassumption.
  - eapply scrypt2_hash_returned_by_primitive; eassumption.
Qed.

Lemma hash_value_comes_from_derivation_witness :
  params_wrong (2^14) 8 1 = false
  /\ exists out,
       @crypto_scrypt Toy.lib (list_byte_of_string "pw") (list_byte_of_string "salt")
                      (2^14) 8 1 64 [] = (0, out)
       /\ Toy.value_of (Scrypt3.scrypt_hash Toy.default_args Toy.quiet) = PyBytes out.
Proof.
  apply (proj1 (hash_value_comes_from_derivation Toy.default_args Toy.quiet
                  (list_byte_of_string "pw") (list_byte_of_string "salt")
                  (2^14) 8 1
                  (Toy.value_of (Scrypt3.scrypt_hash Toy.default_args Toy.quiet))
                  toy_crypto_scrypt_fills) 2 4).
  - vm_compute. reflexivity.
  - vm_compute. reflexivity.
Defined.

(** X4 (failure of [encrypt]).  When the buffer is served and [scryptenc_buf]
    reports one of its codes 1 to 13, [encrypt] returns no value and leaves
    the module's error raised with no value: the error formatted from the
    code's message is replaced by the [PyErr_SetNone] that follows it.  Both
    bindings. *)
Theorem encrypt_failure_raises {L : PrimLib} (a : CryptArgs) (w : World)
    (input password : bytes) (maxtime : float) (maxmem : Z) (maxmemfrac : float)
    (rc : Z) (out : bytes) (e' : Env) :
  1 <= rc <= 13 ->
  Z.of_nat (length input) + 129 <= INT_MAX ->
  Z.of_nat (length input) + 129 <= malloc_limit w ->
  scryptenc_buf input password maxmem maxmemfrac maxtime (env w) = (rc, out, e') ->
  (length out <= length input + 129)%nat ->
  (forall inputlen passwordlen,
      Scrypt3.parse_crypt_args a g_maxtime_default_enc g_maxmem_default
                               g_maxmemfrac_default_enc
      = inr (input, inputlen, password, passwordlen, maxtime, maxmem, maxmemfrac) ->
      outcome (Scrypt3.scrypt_encrypt a w) = Raised (Some (ScryptError, NoValue)))
  /\ (Scrypt2.parse_crypt_args a g_maxtime_default_enc g_maxmem_default
                               g_maxmemfrac_default_enc
      = inr (input, password, maxtime, maxmem, maxmemfrac) ->
      outcome (Scrypt2.scrypt_encrypt a w) = Raised (Some (ScryptError, NoValue))).
Proof.
  intros Hrc Hint Hm Hprim Hlen. split; intros.
  - eapply scrypt3_encrypt_fails; eassumption.
  - eapply scrypt2_encrypt_fails; eassumption.
Qed.

(** No entropy left on the host: the container cannot be salted. *)
Lemma encrypt_failure_raises_witness :
  outcome (Scrypt3.scrypt_encrypt (Toy.crypt_args Toy.hi Toy.pw) Toy.quiet)
  = Raised (Some (ScryptError, NoValue)).
Proof.
  apply (proj1 (encrypt_failure_raises (Toy.crypt_args Toy.hi Toy.pw) Toy.quiet
                  (list_byte_of_string "hi") (list_byte_of_string "pw")
                  g_maxtime_default_enc g_maxmem_default g_maxmemfrac_default_enc
                  4 [] []
                  ltac:(lia)
                  ltac:(apply Z.leb_le; vm_compute; reflexivity)
                  ltac:(apply Z.leb_le; vm_compute; reflexivity)
                  ltac:(vm_compute; reflexivity)
                  ltac:(apply Nat.leb_le; vm_compute; reflexivity)) 2 2).
  vm_compute. reflexivity.
Defined.

(** X5 (codes outside the table).  The error table has fourteen entries and
    is indexed by the code without a check: when [scryptenc_buf] or
    [scryptdec_buf] reports a negative code or one above 13, [encrypt] and
    [decrypt] read past the table, in both bindings. *)
Theorem error_code_outside_table_is_undefined {L : PrimLib} (a : CryptArgs) (w : World)
    (input password : bytes) (maxtime : float) (maxmem : Z) (maxmemfrac : float)
    (rc : Z) (out : bytes) (outlen : Z) (e' : Env) :
  rc < 0 \/ 13 < rc ->
  Z.of_nat (length input) + 129 <= INT_MAX ->
  Z.of_nat (length input) + 129 <= malloc_limit w ->
  (scryptenc_buf input password maxmem maxmemfrac maxtime (env w) = (rc, out, e') ->
   (length out <= length input + 129)%nat ->
   (forall inputlen passwordlen,
       Scrypt3.parse_crypt_args a g_maxtime_default_enc g_maxmem_default
                                g_maxmemfrac_default_enc
       = inr (input, inputlen, password, passwordlen, maxtime, maxmem, maxmemfrac) ->
       outcome (Scrypt3.scrypt_encrypt a w) = Undefined OutOfBoundsRead)
   /\ (Scrypt2.parse_crypt_args a g_maxtime_default_enc g_maxmem_default
                                g_maxmemfrac_default_enc
       = inr (input, password, maxtime, maxmem, maxmemfrac) ->
       outcome (Scrypt2.scrypt_encrypt a w) = Undefined OutOfBoundsRead))
  /\ (scryptdec_buf input password maxmem maxmemfrac maxtime (env w)
      = (rc, out, outlen, e') ->
      (length out <= length input)%nat ->
      (forall inputlen passwordlen,
          Scrypt3.parse_crypt_args a g_maxtime_default g_maxmem_default
                                   g_maxmemfrac_default
          = inr (input, inputlen, password, passwordlen, maxtime, maxmem, maxmemfrac) ->
          outcome (Scrypt3.scrypt_decrypt a w) = Undefined OutOfBoundsRead)
      /\ (Scrypt2.parse_crypt_args a g_maxtime_default g_maxmem_default
                                   g_maxmemfrac_default
          = inr (input, password, maxtime, maxmem, maxmemfrac) ->
          outcome (Scrypt2.scrypt_decrypt a w) = Undefined OutOfBoundsRead)).
Proof.
  intros Hrc Hint Hm.
  assert (Hmax : Z.of_nat (length input) <= PY_SSIZE_T_MAX)
    by (cbv [INT_MAX PY_SSIZE_T_MAX] in *; lia).
  split; intros Hprim Hlen; split; intros.
  - eapply scrypt3_encrypt_fails; eassumption.
  - eapply scrypt2_encrypt_fails; eassumption.
  - eapply scrypt3_decrypt_bad_code; try eassumption. lia.
  - eapply scrypt2_decrypt_bad_code; try eassumption. lia.
Qed.

Lemma error_code_outside_table_is_undefined_witness :
  outcome (Scrypt2.scrypt_decrypt (Toy.crypt_args Toy.hi Toy.pw) Toy.quiet_bad)
  = Undefined OutOfBoundsRead.
Proof.
  apply (proj2 (proj2 (error_code_outside_table_is_undefined (L := Toy.lib_bad)
                  (Toy.crypt_args Toy.hi Toy.pw) Toy.quiet_bad
                  (list_byte_of_string "hi") (list_byte_of_string "pw")
                  g_maxtime_default g_maxmem_default g_maxmemfrac_default
                  (-1) [] 0 []
                  ltac:(left; lia)
                  ltac:(apply Z.leb_le; vm_compute; reflexivity)
                  ltac:(apply Z.leb_le; vm_compute; reflexivity))
                ltac:(vm_compute; reflexivity)
                ltac:(apply Nat.leb_le; vm_compute; reflexivity))).
  vm_compute. reflexivity.
Defined.

(** X8 (budget defaults).  Leaving out [maxtime], [maxmem] or [maxmemfrac] is
    the same run as passing 5.0, 0 and 0.125 to [encrypt] and 300.0, 0 and 0.5
    to [decrypt], in both bindings. *)
Theorem omitted_budget_is_default {L : PrimLib} (a : CryptArgs) (w : World) :
  Scrypt3.scrypt_encrypt (explicit_budget 5 0 0.125 a) w = Scrypt3.scrypt_encrypt a w
  /\ Scrypt3.scrypt_decrypt (explicit_budget 300 0 0.5 a) w = Scrypt3.scrypt_decrypt a w
  /\ Scrypt2.scrypt_encrypt (explicit_budget 5 0 0.125 a) w = Scrypt2.scrypt_encrypt a w
  /\ Scrypt2.scrypt_decrypt (explicit_budget 300 0 0.5 a) w = Scrypt2.scrypt_decrypt a w.
Proof.
  unfold Scrypt3.scrypt_encrypt, Scrypt3.scrypt_decrypt,
    Scrypt2.scrypt_encrypt, Scrypt2.scrypt_decrypt.
  unfold g_maxtime_default_enc, g_maxmemfrac_default_enc, g_maxtime_default,
    g_maxmemfrac_default, g_maxmem_default.
  now rewrite !scrypt3_parse_crypt_explicit, !scrypt2_parse_crypt_explicit.
Qed.

(** X9 (argument types, Python 2 binding).  The "S" converter takes byte
    strings only: when an input, password or salt is anything else, the
    function returns [NULL] with [TypeError] set and does nothing else: no
    allocation, no call of the library, the interpreter lock untouched. *)
Theorem python2_rejects_non_strings {L : PrimLib} (a : CryptArgs) (h : HashArgs)
    (w : World) :
  (is_byte_string (a_input a) && is_byte_string (a_password a) = false ->
   Scrypt2.scrypt_encrypt a w
   = Done None (set_err (Some (TypeError, InterpreterMessage)) w)
   /\ Scrypt2.scrypt_decrypt a w
      = Done None (set_err (Some (TypeError, InterpreterMessage)) w))
  /\ (is_byte_string (h_password h) && is_byte_string (h_salt h) = false ->
      Scrypt2.scrypt_hash h w
      = Done None (set_err (Some (TypeError, InterpreterMessage)) w)).
Proof.
  split; intros H.
  - unfold Scrypt2.scrypt_encrypt, Scrypt2.scrypt_decrypt.
    rewrite !(scrypt2_parse_crypt_type_error _ _ _ _ H). split; reflexivity.
  - unfold Scrypt2.scrypt_hash.
    rewrite (scrypt2_parse_hash_type_error _ H). reflexivity.
Qed.

(** Text, where Python 2 wants a byte string. *)
Lemma python2_rejects_non_strings_witness :
  Scrypt2.scrypt_hash (Toy.hash_args Toy.pw Toy.text None None None) Toy.quiet
  = Done None (set_err (Some (TypeError, InterpreterMessage)) Toy.quiet).
Proof.
  apply (proj2 (python2_rejects_non_strings
                  (Toy.crypt_args Toy.hi Toy.pw)
                  (Toy.hash_args Toy.pw Toy.text None None None) Toy.quiet)).
  reflexivity.
Defined.

(** X10 (argument types, Python 3 binding).  When the first argument is
    neither text nor a bytes object, the function returns [NULL] with
    [TypeError] set and does nothing else. *)
Theorem python3_rejects_non_text {L : PrimLib} (a : CryptArgs) (h : HashArgs)
    (w : World) :
  (is_text_or_bytes (a_input a) = false ->
   Scrypt3.scrypt_encrypt a w
   = Done None (set_err (Some (TypeError, InterpreterMessage)) w)
   /\ Scrypt3.scrypt_decrypt a w
      = Done None (set_err (Some (TypeError, InterpreterMessage)) w))
  /\ (is_text_or_bytes (h_password h) = false ->
      Scrypt3.scrypt_hash h w
      = Done None (set_err (Some (TypeError, InterpreterMessage)) w)).
Proof.
  split; intros H.
  - unfold Scrypt3.scrypt_encrypt, Scrypt3.scrypt_decrypt.
    rewrite !(scrypt3_parse_crypt_type_error _ _ _ _ H). split; reflexivity.
  - unfold Scrypt3.scrypt_hash.
    rewrite (scrypt3_parse_hash_type_error _ H). reflexivity.
Qed.

Lemma python3_rejects_non_text_witness :
  Scrypt3.scrypt_encrypt (Toy.crypt_args (PyLong 7) Toy.pw) Toy.quiet
  = Done None (set_err (Some (TypeError, InterpreterMessage)) Toy.quiet).
Proof.
  apply (proj1 (proj1 (python3_rejects_non_text
                         (Toy.crypt_args (PyLong 7) Toy.pw) Toy.default_args Toy.quiet)
                  ltac:(reflexivity))).
Defined.

(** X11 (the interpreter lock).  From a state that holds the lock, the
    Python 3 functions release it only around the call of the library and
    take it back before they touch the interpreter again: each allocation and
    release of the buffer happens with the lock held, the library runs with
    the lock released, and a run that returns hands the lock back held.  The
    Python 2 functions do the same but for one thing: they call
    [PyString_AsString] on both string arguments after they have released the
    lock.  Leaving those calls aside the rules are kept; with them, every call
    of [encrypt] and [decrypt] whose arguments parse (and whose buffer size
    does not overflow), and every call of [hash] whose parameters the guard
    accepts, uses the interpreter without the lock. *)
Theorem lock_discipline_of_bindings {L : PrimLib} (a : CryptArgs) (h : HashArgs)
    (w : World) :
  (gil_kept w (Scrypt3.scrypt_encrypt a w)
   /\ gil_kept w (Scrypt3.scrypt_decrypt a w)
   /\ gil_kept w (Scrypt3.scrypt_hash h w))
  /\ (gil_kept_but_for_strings w (Scrypt2.scrypt_encrypt a w)
      /\ gil_kept_but_for_strings w (Scrypt2.scrypt_decrypt a w)
      /\ gil_kept_but_for_strings w (Scrypt2.scrypt_hash h w))
  /\ (forall input password maxtime maxmem maxmemfrac,
      Scrypt2.parse_crypt_args a g_maxtime_default_enc g_maxmem_default
                               g_maxmemfrac_default_enc
      = inr (input, password, maxtime, maxmem, maxmemfrac) ->
      Z.of_nat (length input) + 129 <= INT_MAX ->
      gil_broken w (Scrypt2.scrypt_encrypt a w))
  /\ (forall input password maxtime maxmem maxmemfrac,
      Scrypt2.parse_crypt_args a g_maxtime_default g_maxmem_default
                               g_maxmemfrac_default
      = inr (input, password, maxtime, maxmem, maxmemfrac) ->
      gil_broken w (Scrypt2.scrypt_decrypt a w))
  /\ (forall pw salt N r p,
      Scrypt2.parse_hash_args h = inr (pw, salt, N, r, p) ->
      if params_wrong N r p
      then gil_kept w (Scrypt2.scrypt_hash h w)
      else gil_broken w (Scrypt2.scrypt_hash h w)).
Proof.
  split; [|split; [|split; [|split]]].
  - split; [apply scrypt3_encrypt_gil_kept|].
    split; [apply scrypt3_decrypt_gil_kept | apply scrypt3_hash_gil_kept].
  - split; [apply scrypt2_encrypt_gil_apart|].
    split; [apply scrypt2_decrypt_gil_apart | apply scrypt2_hash_gil_apart].
  - intros. eapply scrypt2_encrypt_gil_broken; eassumption.
  - intros. eapply scrypt2_decrypt_gil_broken; eassumption.
  - intros pw salt N r p Hparse.
    destruct (params_wrong N r p) eqn:Hw.
    + eapply scrypt2_hash_gil_kept_rejected; eassumption.
    + eapply scrypt2_hash_gil_broken; eassumption.
Qed.

(** A call of the Python 2 [decrypt] that fails on a malformed container has
    already asked for the bytes of its arguments without the lock. *)
Lemma lock_discipline_of_bindings_witness :
  gil_broken Toy.quiet
    (Scrypt2.scrypt_decrypt (Toy.crypt_args Toy.hi Toy.pw) Toy.quiet).
Proof.
  apply (proj1 (proj2 (proj2 (proj2 (lock_discipline_of_bindings
                                       (Toy.crypt_args Toy.hi Toy.pw)
                                       Toy.default_args Toy.quiet))))
           (list_byte_of_string "hi") (list_byte_of_string "pw")
           g_maxtime_default g_maxmem_default g_maxmemfrac_default).
  reflexivity.
Defined.

(** X12 (argument references, Python 2 binding).  The Python 2 functions take
    a reference to each string argument for the time of the call; every run
    that returns has given back exactly the references it took, and no run
    gives back more than it took. *)
Theorem python2_references_given_back {L : PrimLib} (a : CryptArgs) (h : HashArgs)
    (w : World) :
  refs_given_back w (Scrypt2.scrypt_encrypt a w)
  /\ refs_given_back w (Scrypt2.scrypt_decrypt a w)
  /\ refs_given_back w (Scrypt2.scrypt_hash h w).
Proof.
  repeat split.
  - apply scrypt2_encrypt_refs.
  - apply scrypt2_decrypt_refs.
  - apply scrypt2_hash_refs.
Qed.

(** X13 (size of the output buffer of [encrypt]).  The size [inputlen + 129]
    is computed in [int]: the addition overflows exactly when the input is
    longer than [INT_MAX - 129] bytes, in both bindings. *)
Theorem encrypt_size_overflows {L : PrimLib} (a : CryptArgs) (w : World)
    (input password : bytes) (maxtime : float) (maxmem : Z) (maxmemfrac : float) :
  (forall inputlen passwordlen,
      Scrypt3.parse_crypt_args a g_maxtime_default_enc g_maxmem_default
                               g_maxmemfrac_default_enc
      = inr (input, inputlen, password, passwordlen, maxtime, maxmem, maxmemfrac) ->
      outcome (Scrypt3.scrypt_encrypt a w) = Undefined SignedOverflow
      <-> INT_MAX - 129 < Z.of_nat (length input))
  /\ (Scrypt2.parse_crypt_args a g_maxtime_default_enc g_maxmem_default
                               g_maxmemfrac_default_enc
      = inr (input, password, maxtime, maxmem, maxmemfrac) ->
      Z.of_nat (length input) <= PY_SSIZE_T_MAX ->
      outcome (Scrypt2.scrypt_encrypt a w) = Undefined SignedOverflow
      <-> INT_MAX - 129 < Z.of_nat (length input)).
Proof.
  split; intros.
  - eapply scrypt3_encrypt_overflow; eassumption.
  - eapply scrypt2_encrypt_overflow; eassumption.
Qed.

Lemma encrypt_size_overflows_witness :
  outcome (Scrypt3.scrypt_encrypt (Toy.crypt_args Toy.hi Toy.pw) Toy.quiet)
  = Undefined SignedOverflow
  <-> INT_MAX - 129 < 2.
Proof.
  apply (proj1 (encrypt_size_overflows (Toy.crypt_args Toy.hi Toy.pw) Toy.quiet
                  (list_byte_of_string "hi") (list_byte_of_string "pw")
                  g_maxtime_default_enc g_maxmem_default g_maxmemfrac_default_enc)
           2 2).
  vm_compute. reflexivity.
Defined.

(** X14 (allocation failure).  The result of [PyMem_Malloc] is never tested:
    when the allocator cannot serve the buffer and the library writes at
    least one byte, the write goes through a null pointer, in every
    function of both bindings. *)
Theorem allocation_failure_is_unchecked {L : PrimLib} (w : World) :
  (forall a input password maxtime maxmem maxmemfrac rc out e',
      Z.of_nat (length input) + 129 <= INT_MAX ->
      malloc_limit w < Z.of_nat (length input) + 129 ->
      scryptenc_buf input password maxmem maxmemfrac maxtime (env w) = (rc, out, e') ->
      out <> [] ->
      (forall inputlen passwordlen,
          Scrypt3.parse_crypt_args a g_maxtime_default_enc g_maxmem_default
                                   g_maxmemfrac_default_enc
          = inr (input, inputlen, password, passwordlen, maxtime, maxmem, maxmemfrac) ->
          outcome (Scrypt3.scrypt_encrypt a w) = Undefined NullDereference)
      /\ (Scrypt2.parse_crypt_args a g_maxtime_default_enc g_maxmem_default
                                   g_maxmemfrac_default_enc
          = inr (input, password, maxtime, maxmem, maxmemfrac) ->
          outcome (Scrypt2.scrypt_encrypt a w) = Undefined NullDereference))
  /\ (forall a input password maxtime maxmem maxmemfrac rc out outlen e',
      malloc_limit w < Z.of_nat (length input) ->
      scryptdec_buf input password maxmem maxmemfrac maxtime (env w)
      = (rc, out, outlen, e') ->
      out <> [] ->
      (forall inputlen passwordlen,
          Scrypt3.parse_crypt_args a g_maxtime_default g_maxmem_default
                                   g_maxmemfrac_default
          = inr (input, inputlen, password, passwordlen, maxtime, maxmem, maxmemfrac) ->
          outcome (Scrypt3.scrypt_decrypt a w) = Undefined NullDereference)
      /\ (Scrypt2.parse_crypt_args a g_maxtime_default g_maxmem_default
                                   g_maxmemfrac_default
          = inr (input, password, maxtime, maxmem, maxmemfrac) ->
          Z.of_nat (length input) <= PY_SSIZE_T_MAX ->
          outcome (Scrypt2.scrypt_decrypt a w) = Undefined NullDereference))
  /\ (forall h pw salt N r p rc out,
      params_wrong N r p = false ->
      malloc_limit w < 64 ->
      crypto_scrypt pw salt N r p 64 (env w) = (rc, out) ->
      out <> [] ->
      (forall pl sl,
          Scrypt3.parse_hash_args h = inr (pw, pl, salt, sl, N, r, p) ->
          outcome (Scrypt3.scrypt_hash h w) = Undefined NullDereference)
      /\ (Scrypt2.parse_hash_args h = inr (pw, salt, N, r, p) ->
          outcome (Scrypt2.scrypt_hash h w) = Undefined NullDereference)).
Proof.
  split; [|split]; intros; split; intros.
  - eapply scrypt3_encrypt_null; eassumption.
  - eapply scrypt2_encrypt_null; eassumption.
  - eapply scrypt3_decrypt_null; eassumption.
  - eapply scrypt2_decrypt_null; eassumption.
  - eapply scrypt3_hash_null; eassumption.
  - eapply scrypt2_hash_null; eassumption.
Qed.

(** The allocator serves at most 16 bytes; the derivation writes 64. *)
Lemma allocation_failure_is_unchecked_witness :
  outcome (Scrypt3.scrypt_hash Toy.default_args Toy.cramped)
  = Undefined NullDereference.
Proof.
  apply (proj1 (proj2 (proj2 (allocation_failure_is_unchecked Toy.cramped))
                  Toy.default_args
                  (list_byte_of_string "pw") (list_byte_of_string "salt")
                  (2^14) 8 1 0
                  (snd (Toy.kdf (list_byte_of_string "pw") (list_byte_of_string "salt")
                                (2^14) 8 1 64 Toy.entropy))
                  ltac:(vm_compute; reflexivity)
                  ltac:(apply Z.ltb_lt; vm_compute; reflexivity)
                  ltac:(vm_compute; reflexivity)
                  ltac:(vm_compute; discriminate))
           2 4).
  vm_compute. reflexivity.
Defined.

(** X15 (the value of [decrypt]).  When the buffer is served and
    [scryptdec_buf] reports success and a length within the buffer, the
    Python 2 binding returns the first [outlen] bytes of the buffer as a byte
    string; the Python 3 binding decodes them as UTF-8 and returns the text,
    or raises [UnicodeDecodeError] and returns no value when they are not
    UTF-8. *)
Theorem decrypt_value_on_success {L : PrimLib} (a : CryptArgs) (w : World)
    (input password : bytes) (maxtime : float) (maxmem : Z) (maxmemfrac : float)
    (out : bytes) (outlen : Z) (e' : Env) :
  Z.of_nat (length input) <= malloc_limit w ->
  scryptdec_buf input password maxmem maxmemfrac maxtime (env w)
  = (0, out, outlen, e') ->
  (length out <= length input)%nat ->
  0 <= as_int outlen <= Z.of_nat (length input) ->
  (Scrypt2.parse_crypt_args a g_maxtime_default g_maxmem_default g_maxmemfrac_default
   = inr (input, password, maxtime, maxmem, maxmemfrac) ->
   Z.of_nat (length input) <= PY_SSIZE_T_MAX ->
   outcome (Scrypt2.scrypt_decrypt a w)
   = Returned (PyBytes (take (Z.to_nat (as_int outlen))
                             (buffer_after w (length input) out))))
  /\ (forall inputlen passwordlen,
      Scrypt3.parse_crypt_args a g_maxtime_default g_maxmem_default g_maxmemfrac_default
      = inr (input, inputlen, password, passwordlen, maxtime, maxmem, maxmemfrac) ->
      outcome (Scrypt3.scrypt_decrypt a w)
      = match utf8_decode (take (Z.to_nat (as_int outlen))
                                (buffer_after w (length input) out)) with
        | Some s => Returned (PyUnicode s)
        | None => Raised (Some (UnicodeDecodeError, InterpreterMessage))
        end).
Proof.
  intros Hm Hprim Hlen Hcap. split.
  - intros Hparse Hmax. eapply scrypt2_decrypt_succeeds; eassumption.
  - intros inputlen passwordlen Hparse.
    destruct (utf8_decode (take (Z.to_nat (as_int outlen))
                                (buffer_after w (length input) out))) as [s|] eqn:Hdec.
    + eapply scrypt3_decrypt_text; eassumption.
    + eapply scrypt3_decrypt_not_text; eassumption.
Qed.

(** The container of the byte 0xff: bytes for Python 2, an error for
    Python 3. *)
Lemma decrypt_value_on_success_witness :
  outcome (Scrypt2.scrypt_decrypt (Toy.crypt_args (PyBytes Toy.container_ff) Toy.pw)
                                  Toy.quiet)
  = Returned (PyBytes [Byte.xff])
  /\ outcome (Scrypt3.scrypt_decrypt (Toy.crypt_args (PyBytes Toy.container_ff) Toy.pw)
                                     Toy.quiet)
     = Raised (Some (UnicodeDecodeError, InterpreterMessage)).
Proof.
  pose proof (decrypt_value_on_success
                (Toy.crypt_args (PyBytes Toy.container_ff) Toy.pw) Toy.quiet
                Toy.container_ff (list_byte_of_string "pw")
                g_maxtime_default g_maxmem_default g_maxmemfrac_default
                [Byte.xff] 1 []
                ltac:(apply Z.leb_le; vm_compute; reflexivity)
                ltac:(vm_compute; reflexivity)
                ltac:(apply Nat.leb_le; vm_compute; reflexivity)
                ltac:(split; apply Z.leb_le; vm_compute; reflexivity)) as [H2 H3].
  split.
  - apply H2.
    + vm_compute. reflexivity.
    + apply Z.leb_le. vm_compute. reflexivity.
  - apply (H3 129 2). vm_compute. reflexivity.
Defined.
